(** * RevelScraper: a shallow embedding of [RevelScraper.py]

    The scraper drives a browser through a paginated reader, classifies the
    nodes of every "Reading" page into text blocks and appends them to one
    markdown file.  The browser is the environment: every remote call of the
    source ([find_element], [text], [get_attribute], [click], ...) is a
    field of the records below that holds the outcome the call has, a value
    or a raised exception.  Python [str] values are lists of ASCII
    characters; the [set] of processed sources is a [gset]. *)

From stdpp Require Import base gmap sets list strings.
From Stdlib Require Import Ascii String List Bool Arith Lia DecimalString.
Import ListNotations.

Set Default Proof Using "Type".

(* ================================================================= *)
(** ** Python text *)

Module Text.

Definition pystr := list ascii.

Definition str (x : string) : pystr := list_ascii_of_string x.
Arguments str _%_string.

Definition nl : ascii := ascii_of_nat 10.

(** [str.isspace] on the ASCII range: TAB..CR, FS..US and the blank.  The
    [\s] class of [re] accepts the same characters. *)
Definition isspace (c : ascii) : bool :=
  let n := nat_of_ascii c in
  ((9 <=? n) && (n <=? 13)) || ((28 <=? n) && (n <=? 32)).

(** The [\d] class of [re] on the ASCII range. *)
Definition isdigit (c : ascii) : bool :=
  let n := nat_of_ascii c in (48 <=? n) && (n <=? 57).

Definition islower (c : ascii) : bool :=
  let n := nat_of_ascii c in (97 <=? n) && (n <=? 122).

Definition isupper (c : ascii) : bool :=
  let n := nat_of_ascii c in (65 <=? n) && (n <=? 90).

Definition upper (c : ascii) : ascii :=
  if islower c then ascii_of_nat (nat_of_ascii c - 32) else c.

Definition lower (c : ascii) : ascii :=
  if isupper c then ascii_of_nat (nat_of_ascii c + 32) else c.

(** [str.capitalize]. *)
Definition capitalize (s : pystr) : pystr :=
  match s with
  | [] => []
  | c :: r => upper c :: map lower r
  end.

(** [s.startswith(p)]. *)
Fixpoint startswith (p s : pystr) : bool :=
  match p, s with
  | [], _ => true
  | _ :: _, [] => false
  | a :: p', b :: s' => Ascii.eqb a b && startswith p' s'
  end.

(** [sub in s] for strings. *)
Fixpoint contains (sub s : pystr) : bool :=
  startswith sub s ||
  match s with
  | [] => false
  | _ :: r => contains sub r
  end.

(** [str.lstrip], [str.rstrip] and [str.strip] without argument. *)
Fixpoint lstrip (s : pystr) : pystr :=
  match s with
  | [] => []
  | c :: r => if isspace c then lstrip r else s
  end.

Fixpoint rstrip (s : pystr) : pystr :=
  match s with
  | [] => []
  | c :: r =>
      match rstrip r with
      | [] => if isspace c then [] else [c]
      | r' => c :: r'
      end
  end.

Definition strip (s : pystr) : pystr := rstrip (lstrip s).

(** [s.replace(old, new)] for a non-empty [old]: occurrences are replaced
    from the left and do not overlap.  [skip] counts the characters of an
    occurrence that are still to be passed over. *)
Fixpoint replace_from (old new : pystr) (skip : nat) (s : pystr) : pystr :=
  match s with
  | [] => []
  | c :: r =>
      match skip with
      | S k => replace_from old new k r
      | O =>
          if startswith old s
          then new ++ replace_from old new (length old - 1) r
          else c :: replace_from old new 0 r
      end
  end.

Definition replace (old new s : pystr) : pystr := replace_from old new 0 s.

(** [sep.join(parts)]. *)
Fixpoint join (sep : pystr) (parts : list pystr) : pystr :=
  match parts with
  | [] => []
  | [p] => p
  | p :: rest => p ++ sep ++ join sep rest
  end.

(** [str(n)] of a non-negative integer. *)
Definition str_of_nat (n : nat) : pystr :=
  list_ascii_of_string (NilEmpty.string_of_uint (Nat.to_uint n)).

(** *** The fragment of [re] the title pattern is written in

    A pattern is a sequence of atoms; an atom is an alternation of literal
    words or a greedy [+] over a character class.  Matching backtracks as
    [re] does: alternatives are tried in order, a [+] gives characters back
    one at a time from its longest run. *)

Inductive atom : Type :=
  | Alt (words : list pystr)
  | Plus (cls : ascii -> bool).

Definition regex := list atom.

Fixpoint first_some {A B : Type} (f : A -> option B) (l : list A) : option B :=
  match l with
  | [] => None
  | x :: r => match f x with Some y => Some y | None => first_some f r end
  end.

Fixpoint run_length (cls : ascii -> bool) (s : pystr) : nat :=
  match s with
  | [] => 0
  | c :: r => if cls c then S (run_length cls r) else 0
  end.

(** [match_here r s]: the remainder of [s] behind the match of [r] that
    starts at the head of [s], if there is one. *)
Fixpoint match_here (r : regex) (s : pystr) : option pystr :=
  match r with
  | [] => Some s
  | Alt words :: r' =>
      first_some
        (fun w => if startswith w s then match_here r' (skipn (length w) s) else None)
        words
  | Plus cls :: r' =>
      first_some
        (fun k => match_here r' (skipn k s))
        (rev (seq 1 (run_length cls s)))
  end.

(** [re.sub(r, repl, s)] for a pattern that matches no empty string. *)
Fixpoint sub_from (r : regex) (repl : pystr) (skip : nat) (s : pystr) : pystr :=
  match s with
  | [] => []
  | c :: rest =>
      match skip with
      | S k => sub_from r repl k rest
      | O =>
          match match_here r s with
          | Some rem => repl ++ sub_from r repl (length s - length rem - 1) rest
          | None => c :: sub_from r repl 0 rest
          end
      end
  end.

Definition re_sub (r : regex) (repl s : pystr) : pystr := sub_from r repl 0 s.

(** [re.search(r, s) is not None]. *)
Fixpoint re_search (r : regex) (s : pystr) : bool :=
  match match_here r s with
  | Some _ => true
  | None => match s with [] => false | _ :: rest => re_search r rest end
  end.

End Text.

Import Text.

(* ================================================================= *)
(** ** Exceptions and the outcome of a remote call *)

Inductive exn : Type :=
  | StaleElementReferenceException
  | TimeoutException
  | NoSuchElementException
  | WebDriverException
  | AttributeError.

Inductive result (A : Type) : Type :=
  | Return (a : A)
  | Raise (e : exn).
Arguments Return {A} a.
Arguments Raise {A} e.

#[global] Instance result_ret : MRet result := fun A a => Return a.
#[global] Instance result_bind : MBind result := fun A B f m =>
  match m with
  | Return a => f a
  | Raise e => Raise e
  end.

#[global] Instance exn_eq_dec : EqDecision exn.
Proof. solve_decision. Defined.

(* ================================================================= *)
(** ** The browser as the scraper sees it *)

(** A paragraph or heading found in front of a list: [heading_descendants]
    is [len(prev_header.find_elements(By.XPATH, ".//*"))]. *)
Record heading : Type := {
  heading_text : result pystr;
  heading_descendants : result nat }.

(** A [li] node: a list item, or the entry of the active page. *)
Record li : Type := { li_text : result pystr }.

(** A node of the content region.  The two lookups that start at a list
    are repeated by [wait_and_find_element]: each gives its outcome per
    attempt. *)
Record element : Type := {
  tag_name : pystr;
  text : result pystr;
  get_attribute : pystr -> result (option pystr);
  find_li : result (list li);
  preceding_styled_paragraph : nat -> result heading;
  preceding_heading : nat -> result heading }.

Record region : Type := { find_elements : result (list element) }.

Record button : Type := { click : result unit }.

(** What one turn of the pagination loop meets in the browser. *)
Record page : Type := {
  active_page : nat -> result li;
  page_content : nat -> result region;
  next_button : nat -> result button }.

Record browser : Type := {
  setup_chrome_driver : result unit;
  pages : list page }.

(* ================================================================= *)
(** ** [wait_and_find_element] *)

Inductive event : Type :=
  | Find (attempt : nat)
  | Warning (attempt : nat)
  | Sleep (seconds : nat)
  | Error.

(** The [for attempt in range(retries)] loop from [attempt] on, with
    [remaining] turns left.  When the range is exhausted the function falls
    off its end and gives [None]. *)
Fixpoint wait_from {A : Type} (find : nat -> result A) (retries attempt remaining : nat)
  : result (option A) * list event :=
  match remaining with
  | O => (Return None, [])
  | S n =>
      match find attempt with
      | Return e => (Return (Some e), [Find attempt])
      | Raise StaleElementReferenceException =>
          if attempt =? retries - 1
          then (Raise StaleElementReferenceException, [Find attempt])
          else
            let (r, tr) := wait_from find retries (S attempt) n in
            (r, Find attempt :: Warning (attempt + 1) :: Sleep 1 :: tr)
      | Raise TimeoutException => (Raise TimeoutException, [Find attempt; Error])
      | Raise e => (Raise e, [Find attempt])
      end
  end.

Definition wait_and_find_element_trace {A : Type} (find : nat -> result A) (retries : nat)
  : result (option A) * list event :=
  wait_from find retries 0 retries.

Definition wait_and_find_element {A : Type} (find : nat -> result A) (retries : nat)
  : result (option A) :=
  fst (wait_and_find_element_trace find retries).

(** The default of the [retries] parameter; no caller passes another. *)
Definition default_retries : nat := 5.

(* ================================================================= *)
(** ** [get_list_title] *)

Definition default_list_title : pystr := str "Listed Items".

(** The body of the [try]. *)
Definition find_list_title (el : element) (default : pystr) : result pystr :=
  prev_header ← wait_and_find_element (preceding_styled_paragraph el) default_retries;
  prev_header ←
    match prev_header with
    | Some h =>
        n ← heading_descendants h;
        if negb (n =? 1)
        then wait_and_find_element (preceding_heading el) default_retries
        else mret (Some h)
    | None => mret None
    end;
  match prev_header with
  | Some h => t ← heading_text h; mret (strip t)
  | None => mret default
  end.

Definition get_list_title (el : element) (default : pystr) : result pystr :=
  match find_list_title el default with
  | Raise TimeoutException => Return default
  | Raise StaleElementReferenceException => Return default
  | r => r
  end.

(* ================================================================= *)
(** ** [extract_content] *)

Definition heading_marker : pystr := str "### ".

(** [page_data[-5:]]. *)
Definition last5 (page_data : list pystr) : list pystr :=
  skipn (length page_data - 5) page_data.

(** [any(list_title in recent_line for recent_line in page_data[-5:])]. *)
Definition duplicate_found (list_title : pystr) (page_data : list pystr) : bool :=
  existsb (contains list_title) (last5 page_data).

(** The [for i, line in enumerate(page_data)] loop with its [break]. *)
Fixpoint promote (list_title : pystr) (page_data : list pystr) : list pystr :=
  match page_data with
  | [] => []
  | line :: rest =>
      if contains list_title line
      then (heading_marker ++ line) :: rest
      else line :: promote list_title rest
  end.

(** The loop over the [li] nodes of a list. *)
Fixpoint item_lines (items : list li) : result (list pystr) :=
  match items with
  | [] => mret []
  | i :: rest =>
      t ← li_text i;
      lines ← item_lines rest;
      mret (if bool_decide (strip t = []) then lines
            else (str "- " ++ strip t) :: lines)
  end.

Definition list_items (el : element) : result (list pystr) :=
  items ← find_li el; item_lines items.

Definition media_tags : list pystr :=
  map str ["img"; "video"; "source"; "audio"; "iframe"; "embed"; "object"]%string.

Definition source_attributes : list pystr :=
  map str ["src"; "data-src"; "href"]%string.

Definition img_block (src : pystr) : pystr :=
  str "<img src='" ++ src ++ str "' style='max-width: 350px; display: block; margin: auto;'>".

Definition link_block (tag src : pystr) : pystr :=
  [nl] ++ str "- [" ++ capitalize tag ++ str ": " ++ src ++ str "](" ++ src ++ str ")" ++ [nl].

Definition media_block (tag src : pystr) : pystr :=
  if bool_decide (tag = str "img") then img_block src else link_block tag src.

(** The state of one extraction pass. *)
Record pass : Type := {
  page_data : list pystr;
  processed_sources : gset pystr }.

Definition empty_pass : pass := {| page_data := []; processed_sources := ∅ |}.

(** The [for attr in ...] loop: the source the node is recorded under, if
    an attribute gives one. *)
Fixpoint pick_source (el : element) (attrs : list pystr) (seen : gset pystr)
  : result (option pystr) :=
  match attrs with
  | [] => mret None
  | attr :: rest =>
      v ← get_attribute el attr;
      match v with
      | Some src =>
          if negb (bool_decide (src = [])) && negb (bool_decide (src ∈ seen))
          then mret (Some src)
          else pick_source el rest seen
      | None => pick_source el rest seen
      end
  end.

Definition process_paragraph (el : element) (st : pass) : pass :=
  match text el with
  | Return t => {| page_data := page_data st ++ [strip t];
                   processed_sources := processed_sources st |}
  | Raise _ => st
  end.

Definition process_list (el : element) (page_data : list pystr) : list pystr :=
  match get_list_title el default_list_title with
  | Raise _ => page_data
  | Return list_title =>
      let dup := duplicate_found list_title page_data in
      let page_data := if dup then promote list_title page_data else page_data in
      match list_items el with
      | Raise _ => page_data
      | Return [] => page_data
      | Return items =>
          (if dup then page_data else page_data ++ [heading_marker ++ list_title])
          ++ items
      end
  end.

Definition process_media (el : element) (st : pass) : pass :=
  match pick_source el source_attributes (processed_sources st) with
  | Return (Some src) =>
      {| page_data := page_data st ++ [media_block (tag_name el) src];
         processed_sources := processed_sources st ∪ {[ src ]} |}
  | Return None => st
  | Raise _ => st
  end.

Definition is_media (el : element) : bool :=
  bool_decide (tag_name el ∈ media_tags).

(** The body of the loop over the nodes, with its two handlers, for a node
    whose tag name can be read: whatever else the node raises, the pass
    goes on with what was done so far.  [process_node] below is the body
    for a node whose tag name may raise as well. *)
Definition process_element (st : pass) (el : element) : pass :=
  if bool_decide (tag_name el = str "p") then process_paragraph el st
  else if bool_decide (tag_name el ∈ [str "ul"; str "ol"]) then
    {| page_data := process_list el (page_data st);
       processed_sources := processed_sources st |}
  else if is_media el then process_media el st
  else st.

Definition extract_pass (els : list element) : pass :=
  fold_left process_element els empty_pass.

Definition extract_content (p : page) : list pystr :=
  match wait_and_find_element (page_content p) default_retries with
  | Return (Some r) =>
      match find_elements r with
      | Return els => page_data (extract_pass els)
      | Raise _ => []
      end
  | Return None => []
  | Raise _ => []
  end.

(* ================================================================= *)
(** ** [get_active_page_title] and [click_next_button] *)

Definition unknown_title : pystr := str "Unknown Module Title".

Definition read_active_page_title (p : page) : result pystr :=
  active ← wait_and_find_element (active_page p) default_retries;
  match active with
  | Some a => t ← li_text a; mret (strip t)
  | None => Raise AttributeError
  end.

Definition get_active_page_title (p : page) : pystr :=
  match read_active_page_title p with
  | Return t => t
  | Raise _ => unknown_title
  end.

Definition try_click_next (p : page) : result unit :=
  b ← wait_and_find_element (next_button p) default_retries;
  match b with
  | Some b => click b
  | None => Raise AttributeError
  end.

Definition click_next_button (p : page) : bool :=
  match try_click_next p with
  | Return _ => true
  | Raise _ => false
  end.

(* ================================================================= *)
(** ** [clean_page_title] and [write_content_to_file] *)

Definition content_marker : pystr := str "Reading".

Definition date_re : regex :=
  [ Alt (map str ["JAN"; "FEB"; "MAR"; "APR"; "MAY"; "JUN";
                  "JUL"; "AUG"; "SEP"; "OCT"; "NOV"; "DEC"]%string);
    Plus isspace;
    Plus isdigit ].

Definition clean_page_title (title : pystr) : pystr :=
  let title := strip (replace content_marker [] title) in
  strip (re_sub date_re [] title).

Record scraper : Type := {
  previous_title : option pystr;
  module_number : nat }.

Definition init_scraper : scraper :=
  {| previous_title := None; module_number := 1 |}.

(** What is written to the file, by the statement that writes it. *)
Inductive chunk : Type :=
  | Header (number : nat) (title : pystr)
  | Body (content : list pystr).

Definition render (c : chunk) : pystr :=
  match c with
  | Header n title =>
      str "# Module " ++ str_of_nat n ++ str ": " ++ title ++ [nl; nl]
  | Body content => join [nl; nl] content ++ [nl; nl]
  end.

Definition file_text (chunks : list chunk) : pystr := concat (map render chunks).

Definition write_content_to_file (self : scraper) (title : pystr) (content : list pystr)
  : scraper * list chunk :=
  if bool_decide (previous_title self = Some title)
  then (self, [Body content])
  else ({| previous_title := Some title; module_number := module_number self + 1 |},
        [Header (module_number self) title; Body content]).

(* ================================================================= *)
(** ** [scrape_content] *)

(** The record of one turn of the [while True] loop. *)
Record iteration : Type := {
  it_title : pystr;
  it_extracted : option (list pystr);
  it_written : list chunk;
  it_advanced : bool }.

Definition loop_body (p : page) (self : scraper) : iteration * scraper :=
  let page_title := get_active_page_title p in
  if negb (contains content_marker page_title) then
    ({| it_title := page_title; it_extracted := None; it_written := [];
        it_advanced := click_next_button p |}, self)
  else
    let content := extract_content p in
    let (self', written) :=
      match content with
      | [] => (self, [])
      | _ => write_content_to_file self (clean_page_title page_title) content
      end in
    ({| it_title := page_title; it_extracted := Some content; it_written := written;
        it_advanced := click_next_button p |}, self').

Inductive outcome : Type :=
  | Completed
  | Failed (e : exn)
  | Unfinished.

Record run : Type := {
  iterations : list iteration;
  final : scraper;
  status : outcome }.

(** The loop over the pages the browser shows, one per turn.  It ends when
    [click_next_button] gives [False]; [Unfinished] says that the browser
    still had a next page when the list of pages was used up. *)
Fixpoint scrape_loop (ps : list page) (self : scraper) : run :=
  match ps with
  | [] => {| iterations := []; final := self; status := Unfinished |}
  | p :: rest =>
      let (it, self') := loop_body p self in
      if it_advanced it then
        let r := scrape_loop rest self' in
        {| iterations := it :: iterations r; final := final r; status := status r |}
      else {| iterations := [it]; final := self'; status := Completed |}
  end.

(** The run, with the file taken to open and to take every write: an
    [OSError] of [open], [write] or [flush] is not part of this model. *)
Definition scrape_content (b : browser) (self : scraper) : run :=
  match setup_chrome_driver b with
  | Raise e => {| iterations := []; final := self; status := Failed e |}
  | Return _ => scrape_loop (pages b) self
  end.

(** The chunks in [revel_content.md] when the run is over. *)
Definition md_file (r : run) : list chunk := concat (map it_written (iterations r)).

Definition header_titles (chunks : list chunk) : list pystr :=
  omap (fun c => match c with Header _ t => Some t | Body _ => None end) chunks.

(** The calls of [write_content_to_file] of a run, one after the other. *)
Fixpoint write_all (self : scraper) (ws : list (pystr * list pystr))
  : scraper * list chunk :=
  match ws with
  | [] => (self, [])
  | (title, content) :: rest =>
      let (self1, out1) := write_content_to_file self title content in
      let (self2, out2) := write_all self1 rest in
      (self2, out1 ++ out2)
  end.

(** The pages of a run that reach [write_content_to_file], with the title
    and the content they are written with. *)
Definition contribution (it : iteration) : option (pystr * list pystr) :=
  match it_extracted it with
  | Some (b :: bs) => Some (clean_page_title (it_title it), b :: bs)
  | _ => None
  end.

(** A list of titles with every stretch of equal neighbours reduced to its
    first member; [prev] is the title in front of the list, if any. *)
Fixpoint collapse_adjacent (prev : option pystr) (titles : list pystr) : list pystr :=
  match titles with
  | [] => []
  | t :: rest =>
      if bool_decide (prev = Some t) then collapse_adjacent (Some t) rest
      else t :: collapse_adjacent (Some t) rest
  end.

(** What [wait_and_find_element] does in [k] attempts that end on a stale
    reference before the last one: the attempt, the warning, one second of
    sleep. *)
Definition backoff_from (attempt k : nat) : list event :=
  flat_map (fun i => [Find i; Warning (i + 1); Sleep 1]) (seq attempt k).

Definition backoff (k : nat) : list event := backoff_from 0 k.

Definition attempts (tr : list event) : nat :=
  length (filter (fun e => match e with Find _ => true | _ => false end) tr).

Definition slept (tr : list event) : nat :=
  list_sum (omap (fun e => match e with Sleep n => Some n | _ => None end) tr).

(** The pass as it stands in front of node [j] of the region. *)
Definition pass_before (els : list element) (j : nat) : pass :=
  extract_pass (take j els).


(** Nodes and pages to run the scraper on. *)
Module Fixtures.

Definition no_attribute : pystr -> result (option pystr) := fun _ => Return None.

Definition nothing_before : nat -> result heading :=
  fun _ => Raise NoSuchElementException.

Definition styled (t : pystr) : nat -> result heading :=
  fun _ => Return {| heading_text := Return t; heading_descendants := Return 1 |}.

Definition paragraph (t : pystr) : element :=
  {| tag_name := str "p"; text := Return t; get_attribute := no_attribute;
     find_li := Return []; preceding_styled_paragraph := nothing_before;
     preceding_heading := nothing_before |}.

Definition ul (before : nat -> result heading) (items : list pystr) : element :=
  {| tag_name := str "ul"; text := Return (join [nl] items);
     get_attribute := no_attribute;
     find_li := Return (map (fun t => {| li_text := Return t |}) items);
     preceding_styled_paragraph := before;
     preceding_heading := nothing_before |}.

Definition media (tag : pystr) (attrs : list (pystr * pystr)) : element :=
  {| tag_name := tag; text := Return [];
     get_attribute := fun a =>
       Return (snd <$> List.find (fun kv => bool_decide (fst kv = a)) attrs);
     find_li := Return []; preceding_styled_paragraph := nothing_before;
     preceding_heading := nothing_before |}.

Definition found {A : Type} (a : A) : nat -> result A := fun _ => Return a.

Definition reading_page (title : pystr) (els : list element) (next : bool) : page :=
  {| active_page := found {| li_text := Return title |};
     page_content := found {| find_elements := Return els |};
     next_button := if next then found {| click := Return tt |}
                    else fun _ => Raise TimeoutException |}.

(** Two lists under the styled paragraph "Key Terms". *)
Definition key_terms : list element :=
  [ paragraph (str "Key Terms");
    ul (styled (str "Key Terms")) [str "a"];
    ul (styled (str "Key Terms")) [str "b"] ].

(** Two lists under a heading that is no paragraph of the region. *)
Definition key_terms_lists : list element :=
  [ ul (styled (str "Key Terms")) [str "a"];
    ul (styled (str "Key Terms")) [str "b"] ].

(** A list with no styled paragraph in front of it. *)
Definition orphan_list : element := ul nothing_before [str "a"; str "b"].

(** Seven blocks, the first and the last of which hold the title. *)
Definition far_page_data : list pystr :=
  [str "Key Terms at a glance"; str "one"; str "two"; str "three"; str "four";
   str "five"; str "Key Terms"].

Definition far_list : element := ul (styled (str "Key Terms")) [str "a"].

(** Three reading pages titled A, B and A again. *)
Definition aba : browser :=
  {| setup_chrome_driver := Return tt;
     pages :=
       [ reading_page (str "JAN 5 Reading A") [paragraph (str "one")] true;
         reading_page (str "JAN 6 Reading B") [paragraph (str "two")] true;
         reading_page (str "JAN 7 Reading A") [paragraph (str "three")] false ] |}.

(** Two images with the same source, under different attributes. *)
Definition twice_a_png : list element :=
  [ media (str "img") [(str "src", str "a.png")];
    media (str "img") [(str "data-src", str "a.png")] ].

(** A page whose active entry cannot be read. *)
Definition unreadable_page (next : bool) : page :=
  {| active_page := fun _ => Raise TimeoutException;
     page_content := found {| find_elements := Return [paragraph (str "Hello")] |};
     next_button := if next then found {| click := Return tt |}
                    else fun _ => Raise TimeoutException |}.

(** A page whose next control is found but cannot be clicked. *)
Definition stuck_page : page :=
  {| active_page := found {| li_text := Return (str "Reading Intro") |};
     page_content := found {| find_elements := Return [paragraph (str "Hello")] |};
     next_button := found {| click := Raise WebDriverException |} |}.

Definition overview_page (next : bool) : page :=
  reading_page (str "Overview") [paragraph (str "Hello")] next.

End Fixtures.

(** [n] heading markers in a row. *)
Definition markers (n : nat) : pystr := concat (repeat heading_marker n).

(** An attribute value that the loop over the attributes passes over:
    absent, empty, or recorded already. *)
Definition unusable (seen : gset pystr) (v : option pystr) : Prop :=
  v = None \/ v = Some [] \/ exists src, v = Some src /\ src ∈ seen.

(** The numbers of the headers of a file. *)
Definition header_numbers (chunks : list chunk) : list nat :=
  omap (fun c => match c with Header n _ => Some n | Body _ => None end) chunks.

(** Every header of the file is followed by a body, and every body holds
    at least one block. *)
Fixpoint sections_ok (chunks : list chunk) : bool :=
  match chunks with
  | [] => true
  | Body (_ :: _) :: rest => sections_ok rest
  | Header _ _ :: (Body (_ :: _) :: _) as rest => sections_ok rest
  | _ => false
  end.

Module MoreFixtures.

(** A reading page whose content region never shows up. *)
Definition no_region_page : page :=
  {| active_page := Fixtures.found {| li_text := Return (str "Reading Intro") |};
     page_content := fun _ => Raise TimeoutException;
     next_button := Fixtures.found {| click := Return tt |} |}.

End MoreFixtures.

(* ================================================================= *)
(** ** The pass over nodes whose tag name may not be readable

    [element.tag_name] is a remote call like [text] and [get_attribute]:
    on a node that has gone stale it raises.  The loop of
    [extract_content] reads it to dispatch on the node, again between the
    recording of a media source and the appending of its block, and once
    more in either handler, for the log line.  A [node] gives the outcome
    of every such read, by the number of reads made of the node before. *)



(** Where the [try] of the loop body ends: the pass as it stands, the
    number of reads of the tag name made, and what was raised, if
    anything. *)
Record attempt : Type := {
  att_pass : pass;
  att_reads : nat;
  att_raised : option exn }.
















Module StaleFixtures.








End StaleFixtures.

(* ================================================================= *)
(** * Properties *)

(** ** Text *)

Section TextFacts.

Lemma lstrip_length (s : pystr) : length (lstrip s) <= length s.
Proof.
  induction s as [|c r IH]; simpl; [lia|].
  destruct (isspace c); simpl; lia.
Qed.

Lemma rstrip_length (s : pystr) : length (rstrip s) <= length s.
Proof.
  induction s as [|c r IH]; simpl; [lia|].
  destruct (rstrip r) as [|x r'] eqn:E.
  - destruct (isspace c); simpl; lia.
  - simpl in *. lia.
Qed.

Lemma strip_length (s : pystr) : length (strip s) <= length s.
Proof.
  unfold strip. pose proof (rstrip_length (lstrip s)). pose proof (lstrip_length s). lia.
Qed.

Lemma lstrip_head (s : pystr) :
  match lstrip s with [] => True | c :: _ => isspace c = false end.
Proof.
  induction s as [|c r IH]; simpl; [exact I|].
  destruct (isspace c) eqn:E; [exact IH|exact E].
Qed.

Lemma lstrip_fixed (s : pystr) :
  match s with [] => True | c :: _ => isspace c = false end -> lstrip s = s.
Proof. destruct s as [|c r]; simpl; [reflexivity|]. intros ->. reflexivity. Qed.

Lemma rstrip_idem (s : pystr) : rstrip (rstrip s) = rstrip s.
Proof.
  induction s as [|c r IH]; simpl; [reflexivity|].
  destruct (rstrip r) as [|x r'] eqn:E.
  - destruct (isspace c) eqn:Ec; simpl; [reflexivity|]. rewrite Ec. reflexivity.
  - change (rstrip (c :: x :: r')) with
      (match rstrip (x :: r') with
       | [] => if isspace c then [] else [c]
       | y :: r'' => c :: y :: r''
       end).
    rewrite IH. reflexivity.
Qed.

Lemma rstrip_head (s : pystr) :
  match s with [] => True | c :: _ => isspace c = false end ->
  match rstrip s with [] => True | c :: _ => isspace c = false end.
Proof.
  destruct s as [|c r]; simpl; [trivial|]. intros Hc.
  destruct (rstrip r); [rewrite Hc|]; exact Hc.
Qed.

Lemma strip_idem (s : pystr) : strip (strip s) = strip s.
Proof.
  unfold strip.
  rewrite (lstrip_fixed (rstrip (lstrip s))).
  - apply rstrip_idem.
  - apply rstrip_head, lstrip_head.
Qed.

Lemma replace_absent (old new s : pystr) :
  contains old s = false -> replace old new s = s.
Proof.
  unfold replace. induction s as [|c r IH]; [reflexivity|].
  cbn [contains replace_from]. intros H.
  apply orb_false_iff in H as [Hs Hr].
  rewrite Hs. f_equal. exact (IH Hr).
Qed.

Lemma re_sub_absent (r : regex) (repl s : pystr) :
  re_search r s = false -> re_sub r repl s = s.
Proof.
  unfold re_sub. induction s as [|c rest IH]; [reflexivity|].
  cbn [re_search sub_from].
  destruct (match_here r (c :: rest)); [discriminate|].
  intros H. f_equal. exact (IH H).
Qed.

Lemma replace_from_length (old : pystr) (skip : nat) (s : pystr) :
  length (replace_from old [] skip s) <= length s.
Proof.
  revert skip. induction s as [|c r IH]; intros skip; simpl; [lia|].
  destruct skip as [|k].
  - destruct (startswith old (c :: r)); simpl.
    + specialize (IH (length old - 1)). lia.
    + specialize (IH 0). lia.
  - specialize (IH k). lia.
Qed.

Lemma replace_present_shorter (old s : pystr) :
  old <> [] -> contains old s = true -> length (replace old [] s) < length s.
Proof.
  intros Hold. unfold replace. induction s as [|c r IH].
  - destruct old; [congruence|discriminate].
  - cbn [contains replace_from]. intros H.
    destruct (startswith old (c :: r)) eqn:E.
    + simpl. pose proof (replace_from_length old (length old - 1) r). lia.
    + simpl in H. specialize (IH H). simpl. lia.
Qed.

Lemma sub_from_length (r : regex) (skip : nat) (s : pystr) :
  length (sub_from r [] skip s) <= length s.
Proof.
  revert skip. induction s as [|c rest IH]; intros skip; simpl; [lia|].
  destruct skip as [|k].
  - destruct (match_here r (c :: rest)) as [rem|]; simpl.
    + specialize (IH (length (c :: rest) - length rem - 1)). simpl in IH. lia.
    + specialize (IH 0). lia.
  - specialize (IH k). lia.
Qed.

Lemma re_sub_present_shorter (r : regex) (s : pystr) :
  match_here r [] = None -> re_search r s = true -> length (re_sub r [] s) < length s.
Proof.
  intros Hnil. unfold re_sub. induction s as [|c rest IH].
  - simpl. rewrite Hnil. discriminate.
  - cbn [re_search sub_from].
    destruct (match_here r (c :: rest)) as [rem|].
    + intros _. simpl.
      pose proof (sub_from_length r (length (c :: rest) - length rem - 1) rest).
      simpl in *. lia.
    + intros H. specialize (IH H). simpl. lia.
Qed.

End TextFacts.

(* ================================================================= *)
(** ** [clean_page_title] *)

Lemma clean_page_title_stripped (x : pystr) :
  strip (clean_page_title x) = clean_page_title x.
Proof. unfold clean_page_title. apply strip_idem. Qed.

Lemma clean_page_title_length (x : pystr) :
  length (clean_page_title x) <= length x.
Proof.
  unfold clean_page_title.
  pose proof (strip_length (re_sub date_re [] (strip (replace content_marker [] x)))).
  pose proof (sub_from_length date_re 0 (strip (replace content_marker [] x))).
  pose proof (strip_length (replace content_marker [] x)).
  pose proof (replace_from_length content_marker 0 x).
  unfold re_sub, replace in *. lia.
Qed.

(** A title is kept as it is when it is stripped and holds neither the
    marker nor a date. *)
Lemma clean_page_title_fixed (y : pystr) :
  strip y = y ->
  contains content_marker y = false ->
  re_search date_re y = false ->
  clean_page_title y = y.
Proof.
  intros Hs Hm Hd. unfold clean_page_title.
  rewrite (replace_absent _ _ _ Hm), Hs, (re_sub_absent _ _ _ Hd). exact Hs.
Qed.

(** A title that holds the marker or a date gets shorter. *)
Lemma clean_page_title_shrinks (y : pystr) :
  strip y = y ->
  contains content_marker y = true \/ re_search date_re y = true ->
  length (clean_page_title y) < length y.
Proof.
  intros Hs [Hm|Hd].
  - pose proof (replace_present_shorter content_marker y ltac:(discriminate) Hm) as H1.
    unfold clean_page_title.
    pose proof (strip_length (re_sub date_re [] (strip (replace content_marker [] y)))).
    pose proof (sub_from_length date_re 0 (strip (replace content_marker [] y))).
    pose proof (strip_length (replace content_marker [] y)).
    unfold re_sub in *. lia.
  - destruct (contains content_marker y) eqn:Hm.
    + pose proof (replace_present_shorter content_marker y ltac:(discriminate) Hm) as H1.
      unfold clean_page_title.
      pose proof (strip_length (re_sub date_re [] (strip (replace content_marker [] y)))).
      pose proof (sub_from_length date_re 0 (strip (replace content_marker [] y))).
      pose proof (strip_length (replace content_marker [] y)).
      unfold re_sub in *. lia.
    + unfold clean_page_title. rewrite (replace_absent _ _ _ Hm), Hs.
      pose proof (re_sub_present_shorter date_re y eq_refl Hd).
      pose proof (strip_length (re_sub date_re [] y)). lia.
Qed.

(** C3, as the code has it: one pass of [clean_page_title] is a fixed point
    of the second pass for every title whose cleaned form holds neither the
    marker "Reading" nor a date token. *)
Theorem clean_page_title_idempotent_when_clean (x : pystr) :
  contains content_marker (clean_page_title x) = false ->
  re_search date_re (clean_page_title x) = false ->
  clean_page_title (clean_page_title x) = clean_page_title x.
Proof.
  intros Hm Hd. apply clean_page_title_fixed; auto using clean_page_title_stripped.
Qed.

Lemma clean_page_title_idempotent_witness :
  clean_page_title (str "JAN 5 Reading Intro") = str "Intro" /\
  clean_page_title (clean_page_title (str "JAN 5 Reading Intro"))
  = clean_page_title (str "JAN 5 Reading Intro").
Proof.
  split; [vm_compute; reflexivity|].
  apply (clean_page_title_idempotent_when_clean (str "JAN 5 Reading Intro"));
    vm_compute; reflexivity.
Defined.

(** The condition of the theorem above is the exact one: the second pass
    changes every cleaned title that still holds the marker or a date. *)
Lemma clean_page_title_idempotent_only_when_clean (x : pystr) :
  clean_page_title (clean_page_title x) = clean_page_title x ->
  contains content_marker (clean_page_title x) = false /\
  re_search date_re (clean_page_title x) = false.
Proof.
  intros H.
  pose proof (clean_page_title_shrinks _ (clean_page_title_stripped x)) as Hlt.
  rewrite H in Hlt.
  destruct (contains content_marker (clean_page_title x));
    destruct (re_search date_re (clean_page_title x)); auto;
    exfalso; (assert (length (clean_page_title x) < length (clean_page_title x))
               by (apply Hlt; auto)); lia.
Qed.

(** C3, as the claim states it, fails: removing the inner "Reading" of
    "ReaReadingding" leaves "Reading", which the second pass removes. *)
Lemma clean_page_title_not_idempotent :
  clean_page_title (str "ReaReadingding") = str "Reading" /\
  clean_page_title (clean_page_title (str "ReaReadingding")) = [] /\
  clean_page_title (clean_page_title (str "ReaReadingding"))
  <> clean_page_title (str "ReaReadingding").
Proof. vm_compute. repeat split; discriminate. Qed.

(** The date pattern is not removed to a fixed point either. *)
Lemma clean_page_title_date_twice :
  clean_page_title (str "JAN JAN 5 5") = str "JAN  5" /\
  clean_page_title (str "JAN  5") = [].
Proof. vm_compute. split; reflexivity. Qed.

(* ================================================================= *)
(** ** [wait_and_find_element] *)

Section Locator.

Context {A : Type} (find : nat -> result A) (retries : nat).

Lemma wait_from_stale_prefix (k a n : nat) :
  a + k < retries ->
  (forall i, a <= i < a + k -> find i = Raise StaleElementReferenceException) ->
  wait_from find retries a (k + n)
  = (fst (wait_from find retries (a + k) n),
     backoff_from a k ++ snd (wait_from find retries (a + k) n)).
Proof.
  revert a. induction k as [|k IH]; intros a Hlt Hstale.
  - rewrite Nat.add_0_r. simpl. destruct (wait_from find retries a n); reflexivity.
  - cbn [Nat.add wait_from]. rewrite (Hstale a) by lia.
    destruct (Nat.eqb_spec a (retries - 1)) as [E|_]; [lia|].
    rewrite (IH (S a)) by (try lia; intros i Hi; apply Hstale; lia).
    replace (S a + k) with (a + S k) by lia. reflexivity.
Qed.

Lemma attempts_backoff (a k : nat) : attempts (backoff_from a k) = k.
Proof.
  unfold backoff_from, attempts. revert a.
  induction k as [|k IH]; intros a; [reflexivity|].
  cbn [seq flat_map]. cbn. f_equal. apply IH.
Qed.

Lemma slept_backoff (a k : nat) : slept (backoff_from a k) = k.
Proof.
  unfold backoff_from, slept. revert a.
  induction k as [|k IH]; intros a; [reflexivity|].
  cbn [seq flat_map]. cbn. f_equal. apply IH.
Qed.

(** C7: stale references, and nothing else, are tried again.  After [k]
    stale attempts, each followed by one second of sleep, attempt [k]
    decides: an element is returned; any other exception, a timeout among
    them, is raised at once; a stale reference is raised when attempt [k]
    is the last of the [retries]. *)
Theorem wait_and_find_element_retries (k : nat) :
  k < retries ->
  (forall i, i < k -> find i = Raise StaleElementReferenceException) ->
  (forall a, find k = Return a ->
     wait_and_find_element_trace find retries
     = (Return (Some a), backoff k ++ [Find k])) /\
  (find k = Raise TimeoutException ->
     wait_and_find_element_trace find retries
     = (Raise TimeoutException, backoff k ++ [Find k; Error])) /\
  (forall e, find k = Raise e ->
     e <> StaleElementReferenceException -> e <> TimeoutException ->
     wait_and_find_element_trace find retries = (Raise e, backoff k ++ [Find k])) /\
  (find k = Raise StaleElementReferenceException -> S k = retries ->
     wait_and_find_element_trace find retries
     = (Raise StaleElementReferenceException, backoff k ++ [Find k]) /\
     attempts (backoff k ++ [Find k]) = retries /\
     slept (backoff k ++ [Find k]) = retries - 1).
Proof.
  intros Hk Hstale.
  assert (Hpre : wait_and_find_element_trace find retries
                 = (fst (wait_from find retries k (retries - k)),
                    backoff k ++ snd (wait_from find retries k (retries - k)))).
  { unfold wait_and_find_element_trace, backoff.
    replace retries with (k + (retries - k)) at 2 by lia.
    rewrite (wait_from_stale_prefix k 0 (retries - k)); [reflexivity|lia|].
    intros i Hi. apply Hstale. lia. }
  destruct (retries - k) as [|m] eqn:Em; [lia|].
  repeat split.
  - intros a Ha. rewrite Hpre. cbn [wait_from]. rewrite Ha. reflexivity.
  - intros Ht. rewrite Hpre. cbn [wait_from]. rewrite Ht. reflexivity.
  - intros e He Hns Hnt. rewrite Hpre. cbn [wait_from]. rewrite He.
    destruct e; try congruence; reflexivity.
  - rewrite Hpre. cbn [wait_from]. rewrite H.
    destruct (Nat.eqb_spec k (retries - 1)) as [_|E]; [reflexivity|lia].
  - unfold attempts, backoff. rewrite filter_app, length_app.
    fold (attempts (backoff_from 0 k)). rewrite attempts_backoff. simpl. lia.
  - unfold slept, backoff. rewrite omap_app, list_sum_app.
    fold (slept (backoff_from 0 k)). rewrite slept_backoff. simpl. lia.
Qed.

End Locator.

Lemma wait_and_find_element_retries_witness :
  wait_and_find_element_trace
    (fun i => if i <? 2 then Raise StaleElementReferenceException
              else @Raise nat TimeoutException) 5
  = (Raise TimeoutException,
     [Find 0; Warning 1; Sleep 1; Find 1; Warning 2; Sleep 1; Find 2; Error]).
Proof.
  refine (proj1 (proj2 (wait_and_find_element_retries
            (fun i => if i <? 2 then Raise StaleElementReferenceException
                      else @Raise nat TimeoutException) 5 2 _ _)) _).
  - lia.
  - intros i Hi. destruct (Nat.ltb_spec i 2); [reflexivity|lia].
  - reflexivity.
Defined.

(** With the five attempts of the callers: five stale references give four
    seconds of sleep and the exception; a timeout gives no second attempt. *)
Lemma wait_and_find_element_always_stale :
  wait_and_find_element_trace (fun _ => @Raise nat StaleElementReferenceException) 5
  = (Raise StaleElementReferenceException,
     [Find 0; Warning 1; Sleep 1; Find 1; Warning 2; Sleep 1; Find 2; Warning 3; Sleep 1;
      Find 3; Warning 4; Sleep 1; Find 4]).
Proof. reflexivity. Qed.

Lemma wait_and_find_element_timeout_first :
  wait_and_find_element_trace (fun _ => @Raise nat TimeoutException) 5
  = (Raise TimeoutException, [Find 0; Error]).
Proof. reflexivity. Qed.

(** With a positive number of retries the function never falls off the end
    of its loop: it gives an element or raises. *)
Lemma wait_from_not_none {A : Type} (find : nat -> result A) (retries a n : nat) :
  a + n = retries -> 0 < n ->
  fst (wait_from find retries a n) <> Return None.
Proof.
  revert a. induction n as [|n IH]; intros a Hsum Hpos; [lia|].
  cbn [wait_from]. destruct (find a) as [x|e]; [discriminate|].
  destruct e; try discriminate.
  destruct (Nat.eqb_spec a (retries - 1)) as [E|E]; [discriminate|].
  specialize (IH (S a) ltac:(lia) ltac:(lia)).
  destruct (wait_from find retries (S a) n). exact IH.
Qed.

Lemma wait_and_find_element_not_none {A : Type} (find : nat -> result A) :
  wait_and_find_element find default_retries <> Return None.
Proof.
  unfold wait_and_find_element, wait_and_find_element_trace.
  apply wait_from_not_none; unfold default_retries; lia.
Qed.

(* ================================================================= *)
(** ** [get_list_title] *)

Lemma get_list_title_default (el : element) (default : pystr) :
  find_list_title el default = Raise TimeoutException \/
  find_list_title el default = Raise StaleElementReferenceException ->
  get_list_title el default = Return default.
Proof. unfold get_list_title. intros [-> | ->]; reflexivity. Qed.

Lemma get_list_title_styled (el : element) (default : pystr) (h : heading) (t : pystr) :
  wait_and_find_element (preceding_styled_paragraph el) default_retries = Return (Some h) ->
  heading_descendants h = Return 1 ->
  heading_text h = Return t ->
  get_list_title el default = Return (strip t).
Proof.
  intros H1 H2 H3. unfold get_list_title, find_list_title.
  rewrite H1. cbn. rewrite H2. cbn. rewrite H3. reflexivity.
Qed.

Lemma get_list_title_heading (el : element) (default : pystr) (h h' : heading)
    (n : nat) (t : pystr) :
  wait_and_find_element (preceding_styled_paragraph el) default_retries = Return (Some h) ->
  heading_descendants h = Return n -> n <> 1 ->
  wait_and_find_element (preceding_heading el) default_retries = Return (Some h') ->
  heading_text h' = Return t ->
  get_list_title el default = Return (strip t).
Proof.
  intros H1 H2 Hn H3 H4. unfold get_list_title, find_list_title.
  rewrite H1. cbn. rewrite H2. cbn.
  destruct (Nat.eqb_spec n 1) as [E|_]; [contradiction|]. cbn.
  rewrite H3. cbn. rewrite H4. reflexivity.
Qed.

(** Only the two exceptions of the [except] clause are turned into the
    default: whatever else a lookup raises leaves [get_list_title]. *)
Lemma get_list_title_raises (el : element) (default : pystr) (e : exn) :
  find_list_title el default = Raise e ->
  e <> TimeoutException -> e <> StaleElementReferenceException ->
  get_list_title el default = Raise e.
Proof.
  intros H Ht Hs. unfold get_list_title. rewrite H. destruct e; congruence.
Qed.

Lemma find_list_title_first_lookup (el : element) (default : pystr) (e : exn) :
  preceding_styled_paragraph el 0 = Raise e ->
  e <> StaleElementReferenceException ->
  find_list_title el default = Raise e.
Proof.
  intros H Hs. unfold find_list_title, wait_and_find_element,
    wait_and_find_element_trace, default_retries.
  cbn [wait_from]. rewrite H. destruct e; try congruence; reflexivity.
Qed.

Lemma process_list_skipped (el : element) (pd : list pystr) (e : exn) :
  get_list_title el default_list_title = Raise e -> process_list el pd = pd.
Proof. unfold process_list. intros ->. reflexivity. Qed.

(** C5, where the code leaves the claim: a list with no styled paragraph
    in front of it.  The lookup inside the list raises
    [NoSuchElementException], which [get_list_title] does not catch: no
    default title is given and the list, items and all, is lost to the
    page. *)
Theorem get_list_title_no_such_element :
  get_list_title Fixtures.orphan_list default_list_title = Raise NoSuchElementException /\
  page_data (extract_pass [Fixtures.orphan_list]) = [] /\
  page_data (extract_pass [Fixtures.paragraph (str "Intro"); Fixtures.orphan_list])
  = [str "Intro"].
Proof.
  assert (H : get_list_title Fixtures.orphan_list default_list_title
              = Raise NoSuchElementException).
  { apply get_list_title_raises; [|discriminate|discriminate].
    apply find_list_title_first_lookup; [reflexivity|discriminate]. }
  split; [exact H|]. split.
  - unfold extract_pass. cbn [fold_left]. unfold process_element.
    rewrite !bool_decide_eq_false_2 by (vm_compute; discriminate).
    rewrite bool_decide_eq_true_2 by (vm_compute; set_solver).
    cbn [page_data]. apply (process_list_skipped _ _ _ H).
  - vm_compute. reflexivity.
Qed.

(* ================================================================= *)
(** ** Promotion of a list title *)

Lemma contains_app_l (sub pre s : pystr) :
  contains sub s = true -> contains sub (pre ++ s) = true.
Proof.
  intros H. induction pre as [|c pre IH]; [exact H|].
  cbn [app contains]. rewrite IH. apply orb_true_r.
Qed.

Lemma promote_length (title : pystr) (pd : list pystr) :
  length (promote title pd) = length pd.
Proof.
  induction pd as [|l r IH]; [reflexivity|]. simpl.
  destruct (contains title l); simpl; congruence.
Qed.

Lemma promote_first_match (title : pystr) (pd : list pystr) :
  existsb (contains title) pd = true ->
  exists (i : nat) (line : pystr),
    pd !! i = Some line /\ contains title line = true /\
    (forall (j : nat) (l : pystr), j < i -> pd !! j = Some l -> contains title l = false) /\
    promote title pd = <[i := heading_marker ++ line]> pd.
Proof.
  induction pd as [|l r IH]; [discriminate|].
  cbn [existsb promote]. destruct (contains title l) eqn:E.
  - intros _. exists 0, l. repeat split; auto. intros j l' Hj. lia.
  - cbn [orb]. intros H. destruct (IH H) as (i & line & Hi & Hc & Hfirst & Hp).
    exists (S i), line. repeat split; auto.
    + intros [|j] l' Hj Hl; cbn in Hl.
      * congruence.
      * apply (Hfirst j); [lia|exact Hl].
    + cbn. rewrite Hp. reflexivity.
Qed.

Lemma existsb_skipn {A : Type} (f : A -> bool) (n : nat) (l : list A) :
  existsb f (skipn n l) = true -> existsb f l = true.
Proof.
  revert l. induction n as [|n IH]; intros l; [auto|].
  destruct l as [|x r]; [auto|]. cbn [skipn existsb]. intros H.
  rewrite (IH _ H). apply orb_true_r.
Qed.

Lemma process_list_promotes (el : element) (pd : list pystr) (title : pystr) :
  get_list_title el default_list_title = Return title ->
  duplicate_found title pd = true ->
  take (length pd) (process_list el pd) = promote title pd.
Proof.
  intros Ht Hd. unfold process_list. rewrite Ht, Hd.
  pose proof (promote_length title pd) as Hl.
  destruct (list_items el) as [[|x items]|e].
  - rewrite <- Hl. apply firstn_all.
  - rewrite <- Hl. rewrite take_app_length. reflexivity.
  - rewrite <- Hl. apply firstn_all.
Qed.

(** C10: when the look-back over the last five blocks finds the title, the
    block that gets the marker is the first block of the whole page data
    that holds the title; it can lie in front of the five blocks looked
    at. *)
Theorem promotion_marks_first_match :
  (forall (el : element) (pd : list pystr) (title : pystr),
     get_list_title el default_list_title = Return title ->
     duplicate_found title pd = true ->
     exists (i : nat) (line : pystr),
       pd !! i = Some line /\ contains title line = true /\
       (forall (j : nat) (l : pystr),
          j < i -> pd !! j = Some l -> contains title l = false) /\
       take (length pd) (process_list el pd) = <[i := heading_marker ++ line]> pd) /\
  (duplicate_found (str "Key Terms") Fixtures.far_page_data = true /\
   length Fixtures.far_page_data = 7 /\
   process_list Fixtures.far_list Fixtures.far_page_data
   = [str "### Key Terms at a glance"; str "one"; str "two"; str "three"; str "four";
      str "five"; str "Key Terms"; str "- a"]).
Proof.
  split.
  - intros el pd title Ht Hd.
    destruct (promote_first_match title pd) as (i & line & Hi & Hc & Hfirst & Hp).
    { apply existsb_skipn with (n := length pd - 5). exact Hd. }
    exists i, line. repeat split; auto.
    rewrite (process_list_promotes el pd title Ht Hd). exact Hp.
  - vm_compute. repeat split; reflexivity.
Qed.

Lemma promotion_marks_first_match_witness :
  exists (i : nat) (line : pystr),
    Fixtures.far_page_data !! i = Some line /\
    contains (str "Key Terms") line = true /\
    (forall (j : nat) (l : pystr),
       j < i -> Fixtures.far_page_data !! j = Some l ->
       contains (str "Key Terms") l = false) /\
    take (length Fixtures.far_page_data)
         (process_list Fixtures.far_list Fixtures.far_page_data)
    = <[i := heading_marker ++ line]> Fixtures.far_page_data.
Proof.
  apply (proj1 promotion_marks_first_match Fixtures.far_list Fixtures.far_page_data
           (str "Key Terms")); vm_compute; reflexivity.
Defined.

(** Marking is not idempotent: a second promotion for the same title finds
    the marked line again and marks it once more. *)
Lemma promote_twice (title : pystr) (pd : list pystr) (i : nat) (line : pystr) :
  pd !! i = Some line -> contains title line = true ->
  (forall (j : nat) (l : pystr), j < i -> pd !! j = Some l -> contains title l = false) ->
  promote title (promote title pd)
  = <[i := heading_marker ++ heading_marker ++ line]> pd.
Proof.
  revert i. induction pd as [|l r IH]; intros i Hi Hc Hfirst; [discriminate|].
  destruct i as [|i]; cbn in Hi.
  - injection Hi as ->. cbn [promote]. rewrite Hc. cbn [promote].
    rewrite (contains_app_l _ heading_marker _ Hc). reflexivity.
  - assert (Hl : contains title l = false) by (apply (Hfirst 0); [lia|reflexivity]).
    cbn [promote]. rewrite Hl. cbn [promote]. rewrite Hl. cbn. f_equal.
    apply IH; auto. intros j l' Hj Hl'. apply (Hfirst (S j)); [lia|exact Hl'].
Qed.

(** C2, where the code leaves the claim: two lists that resolve to the
    title "Key Terms".  The second list marks the line that the first one
    marked, or wrote with its marker, and the page data holds the title
    with the marker doubled. *)
Theorem promotion_doubles_marker :
  page_data (extract_pass Fixtures.key_terms)
  = [str "### ### Key Terms"; str "- a"; str "- b"] /\
  page_data (extract_pass Fixtures.key_terms_lists)
  = [str "### ### Key Terms"; str "- a"; str "- b"] /\
  promote (str "Key Terms") (promote (str "Key Terms") [str "Key Terms"])
  <> promote (str "Key Terms") [str "Key Terms"].
Proof. vm_compute. repeat split; discriminate. Qed.

(* ================================================================= *)
(** ** Media sources *)



Lemma pass_before_S (els : list element) (j : nat) (el : element) :
  els !! j = Some el ->
  pass_before els (S j) = process_element (pass_before els j) el.
Proof.
  intros H. unfold pass_before, extract_pass.
  rewrite (take_S_r _ _ _ H), fold_left_app. reflexivity.
Qed.

Lemma pass_before_past_end (els : list element) (j : nat) :
  els !! j = None -> pass_before els (S j) = pass_before els j.
Proof.
  intros H. apply lookup_ge_None_1 in H. unfold pass_before.
  rewrite !take_ge by lia. reflexivity.
Qed.




(** Two images that give the same source under [src] and under [data-src]:
    one block. *)
Lemma media_same_source_twice :
  page_data (extract_pass Fixtures.twice_a_png)
  = [str "<img src='a.png' style='max-width: 350px; display: block; margin: auto;'>"].
Proof. vm_compute. reflexivity. Qed.

(** A node whose [src] is already recorded is recorded under its next
    attribute. *)
Lemma media_falls_through :
  page_data (extract_pass
    [ Fixtures.media (str "img") [(str "src", str "a.png")];
      Fixtures.media (str "video") [(str "src", str "a.png"); (str "href", str "b.mp4")] ])
  = [ str "<img src='a.png' style='max-width: 350px; display: block; margin: auto;'>";
      [nl] ++ str "- [Video: b.mp4](b.mp4)" ++ [nl] ].
Proof. vm_compute. reflexivity. Qed.

(* ================================================================= *)
(** ** The pagination loop *)

Lemma loop_body_skip (p : page) (self : scraper) :
  contains content_marker (get_active_page_title p) = false ->
  loop_body p self
  = ({| it_title := get_active_page_title p; it_extracted := None; it_written := [];
        it_advanced := click_next_button p |}, self).
Proof. unfold loop_body. intros ->. reflexivity. Qed.

Lemma loop_body_advanced (p : page) (self : scraper) :
  it_advanced (fst (loop_body p self)) = click_next_button p.
Proof.
  unfold loop_body. destruct (negb _); [reflexivity|].
  destruct (match extract_content p with [] => _ | _ => _ end). reflexivity.
Qed.

(** Turn [i] of a run is the loop body on page [i]; a turn that does not
    advance is the last one and the run is completed. *)
Lemma scrape_loop_lookup (ps : list page) (self : scraper) (i : nat) (it : iteration) :
  iterations (scrape_loop ps self) !! i = Some it ->
  exists (p : page) (self_i : scraper),
    ps !! i = Some p /\ it = fst (loop_body p self_i) /\
    (it_advanced it = false ->
     length (iterations (scrape_loop ps self)) = S i /\
     status (scrape_loop ps self) = Completed).
Proof.
  revert self i. induction ps as [|p rest IH]; intros self i; [discriminate|].
  cbn [scrape_loop]. destruct (loop_body p self) as [it0 self'] eqn:Eb.
  destruct (it_advanced it0) eqn:Ea; cbn [iterations status].
  - destruct i as [|i]; cbn.
    + intros H. injection H as <-. exists p, self. rewrite Eb.
      repeat split; auto; congruence.
    + intros H. destruct (IH self' i H) as (q & self_i & Hq & Hit & Hlast).
      exists q, self_i. repeat split; auto.
      * destruct (Hlast H0) as [Hl _]. rewrite Hl. reflexivity.
      * destruct (Hlast H0) as [_ Hs]. exact Hs.
  - destruct i as [|i]; cbn; [|discriminate].
    intros H. injection H as <-. exists p, self. rewrite Eb. repeat split; auto.
Qed.

(** The run is completed as soon as a page has no next page. *)
Lemma scrape_loop_completed (ps : list page) (self : scraper) :
  (exists p, p ∈ ps /\ click_next_button p = false) ->
  status (scrape_loop ps self) = Completed.
Proof.
  revert self. induction ps as [|p rest IH]; intros self (q & Hin & Hq).
  - apply elem_of_nil in Hin. contradiction.
  - cbn [scrape_loop]. pose proof (loop_body_advanced p self) as Ha.
    destruct (loop_body p self) as [it0 self']. cbn [fst] in Ha.
    destruct (it_advanced it0) eqn:Ea; cbn [status]; [|reflexivity].
    apply IH. apply elem_of_cons in Hin as [->|Hin]; [congruence|]. eauto.
Qed.

(** C6: a page whose title lacks "Reading" is not extracted and nothing is
    written for it; the turn advances and the loop goes on, or does not
    advance and is the last turn of a completed run. *)
Theorem pages_without_marker_are_skipped
    (ps : list page) (self : scraper) (i : nat) (p : page) (it : iteration) :
  ps !! i = Some p ->
  contains content_marker (get_active_page_title p) = false ->
  iterations (scrape_loop ps self) !! i = Some it ->
  it_extracted it = None /\ it_written it = [] /\
  it_advanced it = click_next_button p /\
  (forall self_i, snd (loop_body p self_i) = self_i) /\
  (click_next_button p = false ->
   length (iterations (scrape_loop ps self)) = S i /\
   status (scrape_loop ps self) = Completed).
Proof.
  intros Hp Hm Hit.
  destruct (scrape_loop_lookup ps self i it Hit) as (q & self_i & Hq & -> & Hlast).
  rewrite Hp in Hq. injection Hq as <-.
  rewrite (loop_body_skip p self_i Hm) in *. cbn [fst it_extracted it_written it_advanced] in *.
  repeat split; auto.
  - intros s. rewrite (loop_body_skip p s Hm). reflexivity.
  - apply Hlast. assumption.
  - apply Hlast. assumption.
Qed.

Lemma pages_without_marker_are_skipped_witness :
  let ps := [Fixtures.overview_page true; Fixtures.overview_page false] in
  let it := fst (loop_body (Fixtures.overview_page false) init_scraper) in
  it_extracted it = None /\ it_written it = [] /\
  it_advanced it = click_next_button (Fixtures.overview_page false) /\
  (forall self_i, snd (loop_body (Fixtures.overview_page false) self_i) = self_i) /\
  (click_next_button (Fixtures.overview_page false) = false ->
   length (iterations (scrape_loop ps init_scraper)) = 2 /\
   status (scrape_loop ps init_scraper) = Completed).
Proof.
  intros ps it.
  apply (pages_without_marker_are_skipped ps init_scraper 1
           (Fixtures.overview_page false) it);
    [reflexivity | vm_compute; reflexivity | vm_compute; reflexivity].
Defined.

(** A page without the marker and with a next page, then a reading page:
    the file holds the reading page alone. *)
Lemma overview_then_intro :
  let r := scrape_loop
             [ Fixtures.overview_page true;
               Fixtures.reading_page (str "JAN 5 Reading Intro")
                 [Fixtures.paragraph (str "Hello")] false ] init_scraper in
  map it_extracted (iterations r) = [None; Some [str "Hello"]] /\
  file_text (md_file r) = str "# Module 1: Intro" ++ [nl; nl] ++ str "Hello" ++ [nl; nl] /\
  status r = Completed.
Proof. vm_compute. repeat split; reflexivity. Qed.

(* ================================================================= *)
(** ** [click_next_button] *)

Lemma try_click_next_locate (p : page) (e : exn) :
  wait_and_find_element (next_button p) default_retries = Raise e ->
  try_click_next p = Raise e.
Proof. unfold try_click_next. intros ->. reflexivity. Qed.

Lemma try_click_next_click (p : page) (b : button) (e : exn) :
  wait_and_find_element (next_button p) default_retries = Return (Some b) ->
  click b = Raise e ->
  try_click_next p = Raise e.
Proof. unfold try_click_next. intros -> H. exact H. Qed.

(** C8: whatever is raised while the next control is located or clicked,
    [click_next_button] gives [False]; the turn of the loop it happens in is
    the last one, and the run is completed, not failed. *)
Theorem advance_failure_ends_run
    (ps : list page) (self : scraper) (i : nat) (p : page) (it : iteration) (e : exn) :
  try_click_next p = Raise e ->
  ps !! i = Some p ->
  iterations (scrape_loop ps self) !! i = Some it ->
  click_next_button p = false /\
  it_advanced it = false /\
  length (iterations (scrape_loop ps self)) = S i /\
  status (scrape_loop ps self) = Completed /\
  (forall b, setup_chrome_driver b = Return tt -> pages b = ps ->
             status (scrape_content b self) = Completed).
Proof.
  intros He Hp Hit.
  assert (Hc : click_next_button p = false).
  { unfold click_next_button. rewrite He. reflexivity. }
  destruct (scrape_loop_lookup ps self i it Hit) as (q & self_i & Hq & Heq & Hlast).
  rewrite Hp in Hq. injection Hq as <-.
  assert (Ha : it_advanced it = false).
  { rewrite Heq, loop_body_advanced. exact Hc. }
  destruct (Hlast Ha) as [Hl Hs].
  repeat split; auto.
  intros b Hb <-. unfold scrape_content. rewrite Hb. exact Hs.
Qed.

Lemma advance_failure_ends_run_witness :
  click_next_button Fixtures.stuck_page = false /\
  status (scrape_loop [Fixtures.stuck_page] init_scraper) = Completed.
Proof.
  destruct (advance_failure_ends_run [Fixtures.stuck_page] init_scraper 0
              Fixtures.stuck_page
              (fst (loop_body Fixtures.stuck_page init_scraper))
              WebDriverException)
    as (H1 & _ & _ & H2 & _);
    [vm_compute; reflexivity | reflexivity | vm_compute; reflexivity |].
  split; [exact H1|exact H2].
Defined.

(** [click_next_button] gives [True] only when the control was found and
    the click went through. *)
Lemma click_next_button_true (p : page) :
  click_next_button p = true <->
  exists b, wait_and_find_element (next_button p) default_retries = Return (Some b) /\
            click b = Return tt.
Proof.
  unfold click_next_button, try_click_next. split.
  - destruct (wait_and_find_element (next_button p) default_retries) as [[b|]|e];
      cbn; try discriminate.
    destruct (click b) as [[]|e] eqn:E; [|discriminate]. intros _. eauto.
  - intros (b & -> & Hb). cbn. rewrite Hb. reflexivity.
Qed.

(* ================================================================= *)
(** ** [get_active_page_title] *)

(** The loop itself raises nothing: a run fails only when the browser
    cannot be set up. *)
Lemma scrape_loop_never_fails (ps : list page) (self : scraper) (e : exn) :
  status (scrape_loop ps self) <> Failed e.
Proof.
  revert self. induction ps as [|q rest IH]; intros self; cbn [scrape_loop]; [discriminate|].
  destruct (loop_body q self) as [it0 self']. destruct (it_advanced it0); cbn [status].
  - apply IH.
  - discriminate.
Qed.

(** C9: when the active entry cannot be read, whatever is raised, the
    title is "Unknown Module Title"; it lacks "Reading", the loop neither
    extracts the page nor writes for it, and goes on to the next page or
    ends the run as completed. *)
Theorem unreadable_title_is_skipped
    (ps : list page) (self : scraper) (i : nat) (p : page) (it : iteration) (e : exn) :
  read_active_page_title p = Raise e ->
  ps !! i = Some p ->
  iterations (scrape_loop ps self) !! i = Some it ->
  get_active_page_title p = unknown_title /\
  contains content_marker unknown_title = false /\
  it_title it = unknown_title /\ it_extracted it = None /\ it_written it = [] /\
  it_advanced it = click_next_button p /\
  (click_next_button p = false -> status (scrape_loop ps self) = Completed) /\
  (forall e', status (scrape_loop ps self) <> Failed e').
Proof.
  intros He Hp Hit.
  assert (Ht : get_active_page_title p = unknown_title).
  { unfold get_active_page_title. rewrite He. reflexivity. }
  assert (Hm : contains content_marker (get_active_page_title p) = false).
  { rewrite Ht. vm_compute. reflexivity. }
  destruct (scrape_loop_lookup ps self i it Hit) as (q & self_i & Hq & -> & Hlast).
  rewrite Hp in Hq. injection Hq as <-.
  rewrite (loop_body_skip p self_i Hm) in *. cbn [fst] in *.
  cbn [it_title it_extracted it_written it_advanced] in *.
  repeat split; auto.
  - intros Hc. apply Hlast. exact Hc.
  - intros e'. apply scrape_loop_never_fails.
Qed.

Lemma unreadable_title_is_skipped_witness :
  get_active_page_title (Fixtures.unreadable_page false) = unknown_title /\
  map it_extracted (iterations (scrape_loop [Fixtures.unreadable_page false] init_scraper))
  = [None].
Proof.
  destruct (unreadable_title_is_skipped [Fixtures.unreadable_page false] init_scraper 0
              (Fixtures.unreadable_page false)
              (fst (loop_body (Fixtures.unreadable_page false) init_scraper))
              TimeoutException)
    as (H1 & _);
    [vm_compute; reflexivity | reflexivity | vm_compute; reflexivity |].
  split; [exact H1|vm_compute; reflexivity].
Defined.

(* ================================================================= *)
(** ** Section headers *)

Lemma loop_body_contribution (p : page) (self : scraper) :
  (snd (loop_body p self), it_written (fst (loop_body p self)))
  = match contribution (fst (loop_body p self)) with
    | Some (title, content) => write_content_to_file self title content
    | None => (self, [])
    end.
Proof.
  unfold loop_body. destruct (negb _); [reflexivity|].
  destruct (extract_content p) as [|b bs]; [reflexivity|].
  unfold contribution.
  destruct (write_content_to_file self (clean_page_title (get_active_page_title p))
              (b :: bs)) as [s l] eqn:E.
  cbn [fst snd it_written it_extracted it_title]. rewrite E. reflexivity.
Qed.

Lemma contributions_cons (it : iteration) (its : list iteration) :
  omap contribution (it :: its)
  = match contribution it with
    | Some c => c :: omap contribution its
    | None => omap contribution its
    end.
Proof. reflexivity. Qed.

(** The file of a run is what the calls of [write_content_to_file] for the
    contributing pages write, in the order of the pages. *)
Lemma scrape_loop_write_all (ps : list page) (self : scraper) :
  (final (scrape_loop ps self), md_file (scrape_loop ps self))
  = write_all self (omap contribution (iterations (scrape_loop ps self))).
Proof.
  revert self. induction ps as [|p rest IH]; intros self; [reflexivity|].
  cbn [scrape_loop]. pose proof (loop_body_contribution p self) as Hb.
  destruct (loop_body p self) as [it0 self']. cbn [fst snd] in Hb.
  destruct (it_advanced it0).
  - specialize (IH self'). unfold md_file in *.
    cbn [iterations final map concat]. rewrite contributions_cons.
    destruct (contribution it0) as [[title content]|].
    + cbn [write_all]. rewrite <- Hb, <- IH. reflexivity.
    + injection Hb as -> ->. exact IH.
  - unfold md_file. cbn [iterations final map concat]. rewrite contributions_cons.
    destruct (contribution it0) as [[title content]|].
    + cbn [write_all omap list_omap]. rewrite <- Hb, !app_nil_r. reflexivity.
    + injection Hb as -> ->. reflexivity.
Qed.

Lemma header_titles_app (a b : list chunk) :
  header_titles (a ++ b) = header_titles a ++ header_titles b.
Proof. unfold header_titles. apply omap_app. Qed.

Lemma write_all_headers (ws : list (pystr * list pystr)) (self : scraper) :
  header_titles (snd (write_all self ws))
  = collapse_adjacent (previous_title self) (map fst ws).
Proof.
  revert self. induction ws as [|[title content] rest IH]; intros self; [reflexivity|].
  cbn [write_all map fst collapse_adjacent]. unfold write_content_to_file.
  destruct (bool_decide (previous_title self = Some title)) eqn:E.
  - specialize (IH self). destruct (write_all self rest) as [s2 o2].
    cbn [snd] in *. rewrite header_titles_app. cbn.
    apply bool_decide_eq_true_1 in E. rewrite E in IH. exact IH.
  - specialize (IH {| previous_title := Some title;
                      module_number := module_number self + 1 |}).
    destruct (write_all _ rest) as [s2 o2].
    cbn [snd previous_title] in *. rewrite header_titles_app. cbn. f_equal. exact IH.
Qed.

(** C1, as the code has it: [write_content_to_file] writes a header exactly
    when the title is not the title of the page written last, and the
    headers of a run are the cleaned titles of its contributing pages with
    every stretch of equal neighbours reduced to its first page. *)
Theorem section_headers_of_run (ps : list page) (self : scraper) :
  (forall (s : scraper) (title : pystr) (content : list pystr),
     write_content_to_file s title content
     = if bool_decide (previous_title s = Some title)
       then (s, [Body content])
       else ({| previous_title := Some title; module_number := module_number s + 1 |},
             [Header (module_number s) title; Body content])) /\
  header_titles (md_file (scrape_loop ps self))
  = collapse_adjacent (previous_title self)
      (map fst (omap contribution (iterations (scrape_loop ps self)))).
Proof.
  split; [reflexivity|].
  pose proof (scrape_loop_write_all ps self) as H.
  rewrite <- write_all_headers, <- H. reflexivity.
Qed.

(** Pages with one title that follow each other have one header. *)
Lemma collapse_adjacent_repeat (t : pystr) (n : nat) :
  collapse_adjacent None (repeat t (S n)) = [t].
Proof.
  cbn. assert (H : collapse_adjacent (Some t) (repeat t n) = []).
  { induction n as [|n IH]; [reflexivity|]. cbn.
    rewrite bool_decide_eq_true_2 by reflexivity. exact IH. }
  rewrite H. reflexivity.
Qed.

(** C1, as the claim states it, fails: of three reading pages titled A, B
    and A, the third gets a header of its own, and the file holds two
    headers for A. *)
Lemma section_header_written_twice :
  header_titles (md_file (scrape_content Fixtures.aba init_scraper))
  = [str "A"; str "B"; str "A"] /\
  md_file (scrape_content Fixtures.aba init_scraper)
  = [ Header 1 (str "A"); Body [str "one"];
      Header 2 (str "B"); Body [str "two"];
      Header 3 (str "A"); Body [str "three"] ] /\
  length (filter (fun t => bool_decide (t = str "A"))
            (header_titles (md_file (scrape_content Fixtures.aba init_scraper)))) <> 1.
Proof. vm_compute. repeat split; discriminate. Qed.

(* ================================================================= *)
(** * Further properties of the extraction pass *)

Lemma paragraph_dispatch (st : pass) (el : element) :
  tag_name el = str "p" -> process_element st el = process_paragraph el st.
Proof.
  intros H. unfold process_element. rewrite H.
  rewrite bool_decide_eq_true_2 by reflexivity. reflexivity.
Qed.

Lemma paragraphs_fold (els : list element) (texts : list pystr) (st : pass) :
  Forall2 (fun el t => tag_name el = str "p" /\ text el = Return t) els texts ->
  fold_left process_element els st
  = {| page_data := page_data st ++ map strip texts;
       processed_sources := processed_sources st |}.
Proof.
  intros H. revert st. induction H as [|el t els texts [Htag Htext] _ IH]; intros st.
  - cbn. rewrite app_nil_r. destruct st; reflexivity.
  - cbn [fold_left map]. rewrite (paragraph_dispatch st el Htag).
    unfold process_paragraph. rewrite Htext, IH. cbn [page_data processed_sources].
    rewrite <- app_assoc. reflexivity.
Qed.

(** X1: a region of paragraphs whose text can be read gives one block per
    paragraph, the stripped text, in the order of the paragraphs; a
    paragraph that is empty after stripping gives an empty block. *)
Theorem paragraphs_in_order (els : list element) (texts : list pystr) :
  Forall2 (fun el t => tag_name el = str "p" /\ text el = Return t) els texts ->
  page_data (extract_pass els) = map strip texts /\
  length (page_data (extract_pass els)) = length els.
Proof.
  intros H. unfold extract_pass. rewrite (paragraphs_fold els texts empty_pass H).
  cbn [page_data empty_pass app]. split; [reflexivity|].
  rewrite length_map. symmetry. eapply Forall2_length; exact H.
Qed.

Lemma paragraphs_in_order_witness :
  page_data (extract_pass [Fixtures.paragraph (str "  Hello "); Fixtures.paragraph (str "  ")])
  = [str "Hello"; []].
Proof.
  refine (proj1 (paragraphs_in_order
            [Fixtures.paragraph (str "  Hello "); Fixtures.paragraph (str "  ")]
            [str "  Hello "; str "  "] _)).
  repeat constructor.
Defined.

Lemma promote_lookup (title : pystr) (pd : list pystr) (i : nat) (line : pystr) :
  pd !! i = Some line ->
  promote title pd !! i = Some line \/
  promote title pd !! i = Some (heading_marker ++ line).
Proof.
  revert i. induction pd as [|l r IH]; intros i H; [discriminate|].
  cbn [promote]. destruct (contains title l).
  - destruct i as [|i].
    + right. injection H as ->. reflexivity.
    + left. exact H.
  - destruct i as [|i].
    + left. exact H.
    + apply (IH i). exact H.
Qed.

Lemma lookup_app_keeps (pd more : list pystr) (i : nat) (line : pystr) :
  pd !! i = Some line -> (pd ++ more) !! i = Some line.
Proof.
  intros H. rewrite lookup_app_l; [exact H|]. apply lookup_lt_Some in H. exact H.
Qed.

Lemma process_list_keeps (el : element) (pd : list pystr) (i : nat) (line : pystr) :
  pd !! i = Some line ->
  process_list el pd !! i = Some line \/
  process_list el pd !! i = Some (heading_marker ++ line).
Proof.
  intros H. unfold process_list.
  destruct (get_list_title el default_list_title) as [title|e]; [|left; exact H].
  destruct (duplicate_found title pd).
  - destruct (list_items el) as [[|x xs]|e]; try (apply promote_lookup; exact H).
    destruct (promote_lookup title pd i line H) as [H'|H'];
      [left|right]; apply lookup_app_keeps; exact H'.
  - destruct (list_items el) as [[|x xs]|e]; try (left; exact H).
    left. apply lookup_app_keeps, lookup_app_keeps. exact H.
Qed.

Lemma process_element_keeps (st : pass) (el : element) (i : nat) (line : pystr) :
  page_data st !! i = Some line ->
  page_data (process_element st el) !! i = Some line \/
  page_data (process_element st el) !! i = Some (heading_marker ++ line).
Proof.
  intros H. unfold process_element.
  destruct (bool_decide (tag_name el = str "p")).
  { unfold process_paragraph. destruct (text el); cbn [page_data]; left;
      [apply lookup_app_keeps|]; exact H. }
  destruct (bool_decide (tag_name el ∈ [str "ul"; str "ol"])).
  { cbn [page_data]. apply process_list_keeps. exact H. }
  destruct (is_media el); [|left; exact H].
  unfold process_media.
  destruct (pick_source el source_attributes (processed_sources st)) as [[u|]|e];
    cbn [page_data]; left; [apply lookup_app_keeps| |]; exact H.
Qed.

Lemma markers_S (n : nat) (line : pystr) :
  heading_marker ++ markers n ++ line = markers (S n) ++ line.
Proof. unfold markers. cbn [repeat concat]. rewrite <- app_assoc. reflexivity. Qed.

(** X2: a block that the pass has appended stays where it is: later nodes
    of the region neither remove it nor move it, and change it at most by
    putting heading markers in front of it. *)
Theorem blocks_are_kept (els : list element) (j k i : nat) (line : pystr) :
  j <= k ->
  page_data (pass_before els j) !! i = Some line ->
  exists n, page_data (pass_before els k) !! i = Some (markers n ++ line).
Proof.
  intros Hjk Hj. induction Hjk as [|k Hjk IH].
  - exists 0. exact Hj.
  - destruct IH as (n & Hn). destruct (els !! k) as [el|] eqn:Hk.
    + rewrite (pass_before_S els k el Hk).
      destruct (process_element_keeps (pass_before els k) el i _ Hn) as [H|H].
      * exists n. exact H.
      * exists (S n). rewrite H, markers_S. reflexivity.
    + rewrite (pass_before_past_end els k Hk). exists n. exact Hn.
Qed.

Lemma blocks_are_kept_witness :
  exists n, page_data (pass_before Fixtures.key_terms 3) !! 0
            = Some (markers n ++ str "Key Terms").
Proof.
  apply (blocks_are_kept Fixtures.key_terms 1 3 0 (str "Key Terms"));
    [lia|vm_compute; reflexivity].
Defined.

(* ----------------------------------------------------------------- *)
(** ** List items *)

(** X3: the items of a list are rendered in their order as "- " and the
    stripped text; items that are empty after stripping are left out; and
    when the text of one item cannot be read the list gives no items at
    all. *)
Theorem item_lines_rendered (items : list li) :
  (forall texts : list pystr,
     Forall2 (fun i t => li_text i = Return t) items texts ->
     item_lines items
     = Return (map (fun t => str "- " ++ strip t)
                 (List.filter (fun t => negb (bool_decide (strip t = []))) texts))) /\
  (forall (i : li) (e : exn),
     i ∈ items -> li_text i = Raise e -> exists e', item_lines items = Raise e').
Proof.
  split.
  - intros texts H. induction H as [|i t items texts Hi _ IH]; [reflexivity|].
    cbn [item_lines List.filter map]. rewrite Hi. cbn. rewrite IH. cbn.
    destruct (bool_decide (strip t = [])); reflexivity.
  - intros i e Hin He. induction items as [|i0 items IH].
    + apply elem_of_nil in Hin. contradiction.
    + cbn [item_lines]. apply elem_of_cons in Hin as [<- | Hin].
      * rewrite He. eexists. reflexivity.
      * destruct (li_text i0) as [t|e0]; [|eexists; reflexivity]. cbn.
        destruct (IH Hin) as (e' & ->). eexists. reflexivity.
Qed.

Lemma item_lines_rendered_witness :
  item_lines [ {| li_text := Return (str " a ") |}; {| li_text := Return (str "  ") |};
               {| li_text := Return (str "b") |} ]
  = Return [str "- a"; str "- b"].
Proof.
  refine (proj1 (item_lines_rendered _) [str " a "; str "  "; str "b"] _).
  repeat constructor.
Defined.

(* ----------------------------------------------------------------- *)
(** ** The look-back window *)

Lemma existsb_skipn_lookup {A : Type} (f : A -> bool) (n : nat) (l : list A) :
  existsb f (skipn n l) = true ->
  exists (i : nat) (x : A), n <= i /\ l !! i = Some x /\ f x = true.
Proof.
  revert l. induction n as [|n IH]; intros l.
  - change (skipn 0 l) with l. induction l as [|y r IHr]; [discriminate|].
    cbn [existsb]. destruct (f y) eqn:E.
    + intros _. exists 0, y. repeat split; [lia|exact E].
    + cbn. intros H. destruct (IHr H) as (i & x & _ & Hi & Hx).
      exists (S i), x. repeat split; [lia|exact Hi|exact Hx].
  - destruct l as [|y r]; [discriminate|]. cbn [skipn]. intros H.
    destruct (IH r H) as (i & x & Hle & Hi & Hx).
    exists (S i), x. repeat split; [lia|exact Hi|exact Hx].
Qed.

(** X4: a list whose title is in none of the last five blocks, and that
    has an item, gets a header and its items appended; the blocks in front
    are left as they are, also when one of them, further back, holds the
    title. *)
Theorem title_outside_window_not_merged
    (el : element) (pd : list pystr) (title x : pystr) (xs : list pystr) :
  get_list_title el default_list_title = Return title ->
  (forall (i : nat) (line : pystr),
     length pd - 5 <= i -> pd !! i = Some line -> contains title line = false) ->
  list_items el = Return (x :: xs) ->
  process_list el pd = pd ++ (heading_marker ++ title) :: x :: xs.
Proof.
  intros Ht Hwin Hitems. unfold process_list. rewrite Ht.
  assert (Hd : duplicate_found title pd = false).
  { destruct (duplicate_found title pd) eqn:E; [|reflexivity].
    apply existsb_skipn_lookup in E as (i & line & Hle & Hi & Hc).
    rewrite (Hwin i line Hle Hi) in Hc. discriminate. }
  rewrite Hd, Hitems, <- app_assoc. reflexivity.
Qed.

Lemma title_outside_window_not_merged_witness :
  process_list Fixtures.far_list
    [str "Key Terms"; str "one"; str "two"; str "three"; str "four"; str "five"]
  = [str "Key Terms"; str "one"; str "two"; str "three"; str "four"; str "five";
     str "### Key Terms"; str "- a"].
Proof.
  apply (title_outside_window_not_merged Fixtures.far_list
           [str "Key Terms"; str "one"; str "two"; str "three"; str "four"; str "five"]
           (str "Key Terms") (str "- a") []).
  - vm_compute. reflexivity.
  - intros i line Hle Hi. cbn in Hle.
    do 6 (destruct i as [|i]; [try lia; injection Hi as <-; vm_compute; reflexivity|]).
    discriminate.
  - vm_compute. reflexivity.
Defined.

(* ----------------------------------------------------------------- *)
(** ** The attribute a media node is recorded under *)

(** X5: the source of a media node is the value of the first attribute, in
    the order given, that is present, not empty and not recorded; the
    attributes in front of it were read and passed over, and those behind
    it are not looked at. *)
Theorem pick_source_priority
    (el : element) (attrs : list pystr) (seen : gset pystr) (u : pystr) :
  pick_source el attrs seen = Return (Some u) <->
  exists (pre : list pystr) (a : pystr) (post : list pystr),
    attrs = pre ++ a :: post /\
    get_attribute el a = Return (Some u) /\ u <> [] /\ (u ∉ seen) /\
    Forall (fun b => exists v, get_attribute el b = Return v /\ unusable seen v) pre.
Proof.
  split.
  - induction attrs as [|a rest IH]; cbn [pick_source]; [discriminate|].
    assert (Hrest : forall v, get_attribute el a = Return v -> unusable seen v ->
              pick_source el rest seen = Return (Some u) ->
              exists pre a0 post, a :: rest = pre ++ a0 :: post /\
                get_attribute el a0 = Return (Some u) /\ u <> [] /\ (u ∉ seen) /\
                Forall (fun b => exists v, get_attribute el b = Return v /\ unusable seen v) pre).
    { intros v Hv Hu H. destruct (IH H) as (pre & a0 & post & -> & H1 & H2 & H3 & H4).
      exists (a :: pre), a0, post. repeat split; auto.
      constructor; [exists v; auto|exact H4]. }
    destruct (get_attribute el a) as [[src|]|e] eqn:E; cbn; [| |discriminate].
    + destruct (negb (bool_decide _) && negb (bool_decide _)) eqn:Econd.
      * intros H. injection H as <-.
        apply andb_true_iff in Econd as [E1 E2].
        apply negb_true_iff, bool_decide_eq_false_1 in E1.
        apply negb_true_iff, bool_decide_eq_false_1 in E2.
        exists [], a, rest. repeat split; auto.
      * apply (Hrest (Some src) eq_refl).
        apply andb_false_iff in Econd as [E1|E2].
        -- apply negb_false_iff, bool_decide_eq_true_1 in E1. right. left. rewrite E1. reflexivity.
        -- apply negb_false_iff, bool_decide_eq_true_1 in E2. right. right. eauto.
    + apply (Hrest None eq_refl). left. reflexivity.
  - intros (pre & a & post & -> & Ha & Hne & Hfresh & Hpre).
    induction Hpre as [|b pre (v & Hv & Hu) _ IH]; cbn [app pick_source].
    + rewrite Ha. cbn.
      rewrite (bool_decide_eq_false_2 _ Hne), (bool_decide_eq_false_2 _ Hfresh).
      reflexivity.
    + rewrite Hv. cbn. destruct Hu as [-> | [-> | (src & -> & Hin)]].
      * exact IH.
      * rewrite bool_decide_eq_true_2 by reflexivity. exact IH.
      * rewrite (bool_decide_eq_true_2 _ Hin), andb_false_r. exact IH.
Qed.

(* ================================================================= *)
(** * Further properties of the output file *)

Lemma header_numbers_app (a b : list chunk) :
  header_numbers (a ++ b) = header_numbers a ++ header_numbers b.
Proof. unfold header_numbers. apply omap_app. Qed.

Lemma last_cons_default {A : Type} (x d : A) (l : list A) :
  List.last (x :: l) d = List.last l x.
Proof.
  revert x d. induction l as [|y l IH]; intros x d; [reflexivity|].
  change (List.last (x :: y :: l) d) with (List.last (y :: l) d).
  rewrite (IH y d), (IH y x). reflexivity.
Qed.

Lemma write_all_state (ws : list (pystr * list pystr)) (self : scraper) :
  header_numbers (snd (write_all self ws))
  = seq (module_number self) (length (header_titles (snd (write_all self ws)))) /\
  module_number (fst (write_all self ws))
  = module_number self + length (header_titles (snd (write_all self ws))) /\
  previous_title (fst (write_all self ws))
  = List.last (map (fun w => Some (fst w)) ws) (previous_title self).
Proof.
  revert self. induction ws as [|[title content] rest IH]; intros self.
  - cbn. repeat split. lia.
  - cbn [write_all map fst]. rewrite last_cons_default. unfold write_content_to_file.
    destruct (bool_decide (previous_title self = Some title)) eqn:E.
    + apply bool_decide_eq_true_1 in E.
      destruct (IH self) as (H1 & H2 & H3).
      destruct (write_all self rest) as [s2 o2]. cbn [fst snd] in *.
      rewrite header_numbers_app, header_titles_app. cbn [app].
      change (header_numbers [Body content]) with (@nil nat).
      change (header_titles [Body content]) with (@nil pystr).
      cbn [app]. rewrite <- E. auto.
    + destruct (IH {| previous_title := Some title;
                      module_number := module_number self + 1 |}) as (H1 & H2 & H3).
      destruct (write_all _ rest) as [s2 o2]. cbn [fst snd previous_title module_number] in *.
      rewrite header_numbers_app, header_titles_app.
      change (header_numbers [Header (module_number self) title; Body content])
        with [module_number self].
      change (header_titles [Header (module_number self) title; Body content])
        with [title].
      cbn [app length seq]. rewrite H1, H2, H3, Nat.add_1_r.
      repeat split. lia.
Qed.

(** X6: the headers of a run are numbered one after the other from the
    module number the run starts with; the run ends with that number
    raised by the number of headers written, and with the title of the
    last page written as the previous title. *)
Theorem header_numbers_of_run (ps : list page) (self : scraper) :
  header_numbers (md_file (scrape_loop ps self))
  = seq (module_number self) (length (header_titles (md_file (scrape_loop ps self)))) /\
  module_number (final (scrape_loop ps self))
  = module_number self + length (header_titles (md_file (scrape_loop ps self))) /\
  previous_title (final (scrape_loop ps self))
  = List.last (map (fun w => Some (fst w))
                 (omap contribution (iterations (scrape_loop ps self))))
      (previous_title self).
Proof.
  pose proof (scrape_loop_write_all ps self) as H.
  pose proof (write_all_state (omap contribution (iterations (scrape_loop ps self))) self)
    as Hw.
  rewrite <- H in Hw. exact Hw.
Qed.

Lemma contributions_not_empty (its : list iteration) :
  Forall (fun w : pystr * list pystr => snd w <> []) (omap contribution its).
Proof.
  induction its as [|it its IH]; [constructor|].
  rewrite contributions_cons. unfold contribution at 1.
  destruct (it_extracted it) as [[|b bs]|]; try exact IH.
  constructor; [discriminate|exact IH].
Qed.

Lemma write_all_sections_ok (ws : list (pystr * list pystr)) (self : scraper) :
  Forall (fun w : pystr * list pystr => snd w <> []) ws ->
  sections_ok (snd (write_all self ws)) = true.
Proof.
  intros H. revert self. induction H as [|[title content] rest Hne _ IH]; intros self;
    [reflexivity|].
  cbn [write_all]. unfold write_content_to_file.
  cbn [snd] in Hne. destruct content as [|b bs]; [congruence|].
  destruct (bool_decide (previous_title self = Some title)).
  - specialize (IH self). destruct (write_all self rest) as [s2 o2]. exact IH.
  - specialize (IH {| previous_title := Some title;
                      module_number := module_number self + 1 |}).
    destruct (write_all _ rest) as [s2 o2]. exact IH.
Qed.

(** X7: in the file of a run every header is followed by a body, and
    every body holds at least one block: no page writes an empty section. *)
Theorem file_sections_ok (ps : list page) (self : scraper) :
  sections_ok (md_file (scrape_loop ps self)) = true.
Proof.
  pose proof (scrape_loop_write_all ps self) as H.
  pose proof (write_all_sections_ok _ self
                (contributions_not_empty (iterations (scrape_loop ps self)))) as Hw.
  rewrite <- H in Hw. exact Hw.
Qed.

Lemma collapse_adjacent_distinct (prev : option pystr) (titles : list pystr) :
  (forall t, collapse_adjacent prev titles !! 0 = Some t -> prev <> Some t) /\
  (forall (i : nat) (a b : pystr),
     collapse_adjacent prev titles !! i = Some a ->
     collapse_adjacent prev titles !! S i = Some b -> a <> b).
Proof.
  revert prev. induction titles as [|t rest IH]; intros prev.
  - split; intros; discriminate.
  - cbn [collapse_adjacent]. destruct (IH (Some t)) as [Hhead Hadj].
    destruct (bool_decide (prev = Some t)) eqn:E.
    + apply bool_decide_eq_true_1 in E. subst prev. split; assumption.
    + apply bool_decide_eq_false_1 in E. split.
      * intros t' H. injection H as <-. exact E.
      * intros [|i] a b Ha Hb.
        -- injection Ha as Ha. intros Hab. subst a b.
           apply (Hhead t); [exact Hb|reflexivity].
        -- apply (Hadj i); assumption.
Qed.

(** X8: two headers that follow each other in the file of a run never
    carry the same title. *)
Theorem consecutive_headers_differ
    (ps : list page) (self : scraper) (i : nat) (a b : pystr) :
  header_titles (md_file (scrape_loop ps self)) !! i = Some a ->
  header_titles (md_file (scrape_loop ps self)) !! S i = Some b ->
  a <> b.
Proof.
  pose proof (scrape_loop_write_all ps self) as H.
  pose proof (write_all_headers (omap contribution (iterations (scrape_loop ps self))) self)
    as Hw.
  rewrite <- H in Hw. cbn [snd] in Hw. rewrite Hw.
  apply collapse_adjacent_distinct.
Qed.

Lemma consecutive_headers_differ_witness : str "A" <> str "B".
Proof.
  apply (consecutive_headers_differ (pages Fixtures.aba) init_scraper 0);
    vm_compute; reflexivity.
Defined.

(* ================================================================= *)
(** * Further properties of the run *)

Lemma scrape_loop_cons_advance (p : page) (rest : list page) (self : scraper) :
  click_next_button p = true ->
  scrape_loop (p :: rest) self
  = {| iterations := fst (loop_body p self)
                     :: iterations (scrape_loop rest (snd (loop_body p self)));
       final := final (scrape_loop rest (snd (loop_body p self)));
       status := status (scrape_loop rest (snd (loop_body p self))) |}.
Proof.
  intros Hc. cbn [scrape_loop]. pose proof (loop_body_advanced p self) as Ha.
  destruct (loop_body p self) as [it0 self']. cbn [fst snd] in *.
  rewrite Ha, Hc. reflexivity.
Qed.

Lemma scrape_loop_cons_stop (p : page) (rest : list page) (self : scraper) :
  click_next_button p = false ->
  scrape_loop (p :: rest) self
  = {| iterations := [fst (loop_body p self)];
       final := snd (loop_body p self);
       status := Completed |}.
Proof.
  intros Hc. cbn [scrape_loop]. pose proof (loop_body_advanced p self) as Ha.
  destruct (loop_body p self) as [it0 self']. cbn [fst snd] in *.
  rewrite Ha, Hc. reflexivity.
Qed.

(** X9: the run ends on the first page that has no next page: it makes
    one turn for that page and one for every page in front of it, is
    completed, and does not depend on what the browser would show behind
    it.  When every page shown has a next page the loop has not ended. *)
Theorem run_ends_at_first_stop (ps1 : list page) (self : scraper) :
  Forall (fun q => click_next_button q = true) ps1 ->
  (forall (p : page) (ps2 : list page),
     click_next_button p = false ->
     scrape_loop (ps1 ++ p :: ps2) self = scrape_loop (ps1 ++ [p]) self /\
     length (iterations (scrape_loop (ps1 ++ p :: ps2) self)) = S (length ps1) /\
     status (scrape_loop (ps1 ++ p :: ps2) self) = Completed) /\
  (length (iterations (scrape_loop ps1 self)) = length ps1 /\
   status (scrape_loop ps1 self) = Unfinished).
Proof.
  intros H. revert self. induction H as [|q ps1 Hq _ IH]; intros self.
  - split; [|split; reflexivity]. intros p ps2 Hp. cbn [app].
    rewrite !(scrape_loop_cons_stop p _ self Hp). repeat split.
  - split.
    + intros p ps2 Hp. cbn [app]. rewrite !(scrape_loop_cons_advance q _ self Hq).
      destruct (IH (snd (loop_body q self))) as [IH1 _].
      destruct (IH1 p ps2 Hp) as (E1 & E2 & E3).
      cbn [iterations status length]. rewrite E1. repeat split.
      * rewrite <- E1, E2. reflexivity.
      * rewrite <- E1. exact E3.
    + rewrite (scrape_loop_cons_advance q _ self Hq).
      destruct (IH (snd (loop_body q self))) as [_ [E1 E2]].
      cbn [iterations status length]. rewrite E1. split; [reflexivity|exact E2].
Qed.

Lemma run_ends_at_first_stop_witness :
  length (iterations (scrape_loop
            [Fixtures.overview_page true; Fixtures.overview_page false;
             Fixtures.overview_page true] init_scraper)) = 2.
Proof.
  refine (proj1 (proj2 (proj1 (run_ends_at_first_stop [Fixtures.overview_page true]
            init_scraper _) (Fixtures.overview_page false) [Fixtures.overview_page true] _))).
  - repeat constructor.
  - vm_compute. reflexivity.
Defined.

(** X11: a reading page whose content region cannot be located, or whose
    nodes cannot be listed, or that has no node, gives an empty list of
    blocks: nothing is written, no module number is used, and the loop
    goes on as after any other page. *)
Theorem failed_region_writes_nothing (p : page) (self : scraper) :
  contains content_marker (get_active_page_title p) = true ->
  (exists e, wait_and_find_element (page_content p) default_retries = Raise e) \/
  (exists r, wait_and_find_element (page_content p) default_retries = Return (Some r) /\
             (find_elements r = Return [] \/ exists e, find_elements r = Raise e)) ->
  extract_content p = [] /\
  loop_body p self
  = ({| it_title := get_active_page_title p; it_extracted := Some [];
        it_written := []; it_advanced := click_next_button p |}, self).
Proof.
  intros Hm Hfail.
  assert (He : extract_content p = []).
  { unfold extract_content.
    destruct Hfail as [(e & ->)|(r & -> & [->|(e & ->)])]; reflexivity. }
  split; [exact He|]. unfold loop_body. rewrite Hm, He. reflexivity.
Qed.

Lemma failed_region_writes_nothing_witness :
  extract_content MoreFixtures.no_region_page = [] /\
  snd (loop_body MoreFixtures.no_region_page init_scraper) = init_scraper.
Proof.
  destruct (failed_region_writes_nothing MoreFixtures.no_region_page init_scraper)
    as [H1 H2].
  - vm_compute. reflexivity.
  - left. exists TimeoutException. vm_compute. reflexivity.
  - split; [exact H1|rewrite H2; reflexivity].
Defined.

(* ================================================================= *)
(** * Further properties of the locator and of the list title *)

Lemma wait_from_bounds {A : Type} (find : nat -> result A) (retries n a : nat) :
  a + n = retries -> 0 < n ->
  fst (wait_from find retries a n) <> Return None /\
  1 <= attempts (snd (wait_from find retries a n)) <= n /\
  slept (snd (wait_from find retries a n)) + 1
  = attempts (snd (wait_from find retries a n)).
Proof.
  revert a. induction n as [|n IH]; intros a Hsum Hpos; [lia|].
  cbn [wait_from]. destruct (find a) as [x|e].
  { cbn. repeat split; [discriminate|lia|lia]. }
  destruct e; try (cbn; repeat split; [discriminate|lia|lia]).
  destruct (Nat.eqb_spec a (retries - 1)) as [E|E].
  { cbn. repeat split; [discriminate|lia|lia]. }
  destruct (IH (S a) ltac:(lia) ltac:(lia)) as (H1 & H2 & H3).
  destruct (wait_from find retries (S a) n) as [r tr]. cbn [fst snd] in *.
  split; [exact H1|].
  change (attempts (Find a :: Warning (a + 1) :: Sleep 1 :: tr)) with (S (attempts tr)).
  change (slept (Find a :: Warning (a + 1) :: Sleep 1 :: tr)) with (1 + slept tr).
  lia.
Qed.

(** X12: with at least one retry the locator gives an element or raises,
    never [None]; whatever the lookups do, it makes between one and
    [retries] attempts and sleeps one second between two attempts, and
    nowhere else.  With no retry at all it makes no attempt and gives
    [None]. *)
Theorem locator_bounds {A : Type} (find : nat -> result A) (retries : nat) :
  (0 < retries ->
   wait_and_find_element find retries <> Return None /\
   1 <= attempts (snd (wait_and_find_element_trace find retries)) <= retries /\
   slept (snd (wait_and_find_element_trace find retries))
   = attempts (snd (wait_and_find_element_trace find retries)) - 1) /\
  (retries = 0 -> wait_and_find_element_trace find retries = (Return None, [])).
Proof.
  split.
  - intros Hpos. unfold wait_and_find_element, wait_and_find_element_trace.
    destruct (wait_from_bounds find retries retries 0 eq_refl Hpos) as (H1 & H2 & H3).
    repeat split; [exact H1|lia|lia|lia].
  - intros ->. reflexivity.
Qed.

Lemma locator_bounds_witness :
  attempts (snd (wait_and_find_element_trace
                   (fun i => if i <? 2 then Raise StaleElementReferenceException
                             else Return i) 5)) <= 5.
Proof.
  refine (proj2 (proj1 (proj2 (proj1 (locator_bounds
            (fun i => if i <? 2 then Raise StaleElementReferenceException
                      else Return i) 5) _)))).
  lia.
Defined.

(** X13: how [get_list_title] resolves.  A styled paragraph with exactly
    one descendant gives its stripped text; with any other number of
    descendants it is given up for the nearest heading in front of the
    list, whose stripped text is the title; and a timeout or a stale
    reference in any lookup or read on the way gives the default. *)
Theorem get_list_title_resolution (el : element) (default : pystr) :
  (forall (h : heading) (t : pystr),
     wait_and_find_element (preceding_styled_paragraph el) default_retries
     = Return (Some h) ->
     heading_descendants h = Return 1 -> heading_text h = Return t ->
     get_list_title el default = Return (strip t)) /\
  (forall (h h' : heading) (n : nat) (t : pystr),
     wait_and_find_element (preceding_styled_paragraph el) default_retries
     = Return (Some h) ->
     heading_descendants h = Return n -> n <> 1 ->
     wait_and_find_element (preceding_heading el) default_retries = Return (Some h') ->
     heading_text h' = Return t ->
     get_list_title el default = Return (strip t)) /\
  (forall e : exn,
     e = TimeoutException \/ e = StaleElementReferenceException ->
     wait_and_find_element (preceding_styled_paragraph el) default_retries = Raise e \/
     (exists h,
        wait_and_find_element (preceding_styled_paragraph el) default_retries
        = Return (Some h) /\
        (heading_descendants h = Raise e \/
         (heading_descendants h = Return 1 /\ heading_text h = Raise e) \/
         (exists n, heading_descendants h = Return n /\ n <> 1 /\
            (wait_and_find_element (preceding_heading el) default_retries = Raise e \/
             exists h', wait_and_find_element (preceding_heading el) default_retries
                        = Return (Some h') /\ heading_text h' = Raise e)))) ->
     get_list_title el default = Return default).
Proof.
  split; [|split].
  - intros h t. apply get_list_title_styled.
  - intros h h' n t. apply get_list_title_heading.
  - intros e He Hwhere. apply get_list_title_default.
    assert (Hraise : find_list_title el default = Raise e).
    { unfold find_list_title.
      destruct Hwhere as [->|(h & -> & [Hd|[[Hd Ht]|(n & Hd & Hn & Hsecond)]])];
        cbn; try reflexivity.
      - rewrite Hd. reflexivity.
      - rewrite Hd. cbn. rewrite Ht. reflexivity.
      - rewrite Hd. cbn. destruct (Nat.eqb_spec n 1) as [E|_]; [contradiction|]. cbn.
        destruct Hsecond as [->|(h' & -> & Ht)]; cbn; [reflexivity|].
        rewrite Ht. reflexivity. }
    destruct He as [-> | ->]; [left|right]; exact Hraise.
Qed.

Lemma get_list_title_resolution_witness :
  get_list_title Fixtures.far_list default_list_title = Return (str "Key Terms").
Proof.
  refine (proj1 (get_list_title_resolution Fixtures.far_list default_list_title)
            {| heading_text := Return (str "Key Terms"); heading_descendants := Return 1 |}
            (str "Key Terms") _ _ _); reflexivity.
Defined.

Lemma contains_empty (s : pystr) : contains [] s = true.
Proof. destruct s; reflexivity. Qed.

Lemma last5_not_empty (l : pystr) (r : list pystr) :
  exists x rest, last5 (l :: r) = x :: rest.
Proof.
  unfold last5. destruct (skipn (length (l :: r) - 5) (l :: r)) as [|x rest] eqn:E.
  - apply (f_equal (@length pystr)) in E. rewrite length_skipn in E.
    cbn [length] in E. lia.
  - eauto.
Qed.

(** X14: a heading with blank text gives the empty title, and the empty
    string is part of every block: on a page that has blocks already the
    look-back always fires, the first block of the page gets the marker,
    and the list adds its items, if it has any that can be read, and
    nothing else: no header is written for it. *)
Theorem blank_title_marks_first_block
    (el : element) (l : pystr) (r : list pystr) :
  get_list_title el default_list_title = Return [] ->
  duplicate_found [] (l :: r) = true /\
  process_list el (l :: r)
  = ((heading_marker ++ l) :: r)
    ++ match list_items el with
       | Return items => items
       | Raise _ => []
       end.
Proof.
  intros Ht.
  assert (Hd : duplicate_found [] (l :: r) = true).
  { unfold duplicate_found. destruct (last5_not_empty l r) as (x & rest & ->).
    cbn [existsb]. rewrite contains_empty. reflexivity. }
  split; [exact Hd|].
  unfold process_list. rewrite Ht, Hd. cbn [promote]. rewrite contains_empty.
  destruct (list_items el) as [[|x xs]|e]; rewrite ?app_nil_r; reflexivity.
Qed.

Lemma blank_title_marks_first_block_witness :
  duplicate_found [] [str "Intro"] = true /\
  process_list (Fixtures.ul (Fixtures.styled (str "  ")) [str "a"]) [str "Intro"]
  = [heading_marker ++ str "Intro"]
    ++ match list_items (Fixtures.ul (Fixtures.styled (str "  ")) [str "a"]) with
       | Return items => items
       | Raise _ => []
       end.
Proof.
  apply (blank_title_marks_first_block
           (Fixtures.ul (Fixtures.styled (str "  ")) [str "a"]) (str "Intro") []).
  vm_compute. reflexivity.
Defined.

(* ================================================================= *)
(** * Further properties of [clean_page_title] *)

Lemma rstrip_last (s : pystr) (c : ascii) :
  rstrip s !! (length (rstrip s) - 1) = Some c -> isspace c = false.
Proof.
  induction s as [|c0 r IH]; [discriminate|].
  cbn [rstrip]. destruct (rstrip r) as [|x r'] eqn:E.
  - destruct (isspace c0) eqn:Ec; [discriminate|].
    cbn. intros H. injection H as <-. exact Ec.
  - intros H. apply IH.
    replace (length (x :: r') - 1) with (length r') by (cbn [length]; lia).
    replace (length (c0 :: x :: r') - 1) with (S (length r')) in H
      by (cbn [length]; lia).
    exact H.
Qed.

(** X15: the titles that [clean_page_title] leaves as they are are the
    titles without white space at either end that hold neither the marker
    "Reading" nor a date token. *)
Theorem clean_page_title_fixed_points (y : pystr) :
  clean_page_title y = y <->
  strip y = y /\ contains content_marker y = false /\ re_search date_re y = false.
Proof.
  split.
  - intros H.
    assert (Hs : strip y = y).
    { rewrite <- H at 2. rewrite <- H at 1. apply clean_page_title_stripped. }
    split; [exact Hs|].
    pose proof (clean_page_title_shrinks y Hs) as Hlt. rewrite H in Hlt.
    destruct (contains content_marker y); destruct (re_search date_re y); auto;
      exfalso; (assert (length y < length y) by (apply Hlt; auto)); lia.
  - intros (Hs & Hm & Hd). apply clean_page_title_fixed; assumption.
Qed.

(** X16: a cleaned title is not longer than the title it comes from and
    has no white space at either end. *)
Theorem clean_page_title_shape (x : pystr) :
  length (clean_page_title x) <= length x /\
  (forall c, clean_page_title x !! 0 = Some c -> isspace c = false) /\
  (forall c, clean_page_title x !! (length (clean_page_title x) - 1) = Some c ->
             isspace c = false).
Proof.
  split; [apply clean_page_title_length|]. unfold clean_page_title, strip. split.
  - intros c H.
    pose proof (rstrip_head _ (lstrip_head
      (re_sub date_re [] (rstrip (lstrip (replace content_marker [] x)))))) as Hh.
    destruct (rstrip (lstrip (re_sub date_re [] _))) as [|c0 r]; [discriminate|].
    injection H as <-. exact Hh.
  - intros c. apply rstrip_last.
Qed.

(* ================================================================= *)
(** * When the locator finds, and when the scraper advances *)

Lemma wait_from_found {A : Type} (find : nat -> result A) (retries n a : nat) (x : A) :
  a + n = retries ->
  fst (wait_from find retries a n) = Return (Some x) ->
  exists k, a <= k < retries /\
    (forall i, a <= i < k -> find i = Raise StaleElementReferenceException) /\
    find k = Return x.
Proof.
  revert a. induction n as [|n IH]; intros a Hsum; [discriminate|].
  cbn [wait_from]. destruct (find a) as [y|e] eqn:Ea.
  { cbn. intros H. injection H as ->. exists a. repeat split; [lia|lia| |exact Ea].
    intros i Hi. lia. }
  destruct e; try discriminate.
  destruct (Nat.eqb_spec a (retries - 1)) as [E|E]; [discriminate|].
  specialize (IH (S a) ltac:(lia)).
  destruct (wait_from find retries (S a) n) as [r tr]. cbn [fst] in *.
  intros H. destruct (IH H) as (k & Hk & Hstale & Hfound).
  exists k. repeat split; [lia|lia| |exact Hfound].
  intros i Hi. destruct (Nat.eq_dec i a) as [->|Hne]; [exact Ea|].
  apply Hstale. lia.
Qed.

Lemma wait_from_finds {A : Type} (find : nat -> result A) (retries k : nat) (x : A) :
  k < retries ->
  (forall i, i < k -> find i = Raise StaleElementReferenceException) ->
  find k = Return x ->
  wait_and_find_element find retries = Return (Some x).
Proof.
  intros Hk Hstale Hfound. unfold wait_and_find_element, wait_and_find_element_trace.
  replace retries with (k + (retries - k)) at 2 by lia.
  rewrite (wait_from_stale_prefix find retries k 0 (retries - k));
    [|lia|intros i Hi; apply Hstale; lia].
  cbn [fst Nat.add]. destruct (retries - k) as [|m] eqn:Em; [lia|].
  cbn [wait_from]. rewrite Hfound. reflexivity.
Qed.

(** X17: the locator gives an element exactly when one of the first
    [retries] attempts finds it and every attempt in front of that one
    ended on a stale reference; the element is the one of that attempt. *)
Theorem locator_finds_iff {A : Type} (find : nat -> result A) (retries : nat) (x : A) :
  wait_and_find_element find retries = Return (Some x) <->
  exists k, k < retries /\
    (forall i, i < k -> find i = Raise StaleElementReferenceException) /\
    find k = Return x.
Proof.
  split.
  - intros H. destruct (wait_from_found find retries retries 0 x eq_refl H)
      as (k & Hk & Hstale & Hfound).
    exists k. repeat split; [lia| |exact Hfound]. intros i Hi. apply Hstale. lia.
  - intros (k & Hk & Hstale & Hfound). exact (wait_from_finds find retries k x Hk Hstale Hfound).
Qed.

(** X18: [click_next_button] gives [True] exactly when, within five
    attempts of which all but the last end on a stale reference, the next
    control is found, and the click on it goes through. *)
Theorem click_next_button_advances_iff (p : page) :
  click_next_button p = true <->
  exists (k : nat) (b : button),
    k < 5 /\
    (forall i, i < k -> next_button p i = Raise StaleElementReferenceException) /\
    next_button p k = Return b /\ click b = Return tt.
Proof.
  rewrite click_next_button_true. split.
  - intros (b & Hb & Hc).
    destruct (wait_from_found (next_button p) default_retries default_retries 0 b eq_refl Hb)
      as (k & Hk & Hstale & Hfound).
    exists k, b. unfold default_retries in Hk. repeat split; auto; [lia|].
    intros i Hi. apply Hstale. lia.
  - intros (k & b & Hk & Hstale & Hfound & Hc). exists b. split; [|exact Hc].
    exact (wait_from_finds (next_button p) default_retries k b Hk Hstale Hfound).
Qed.

(* ================================================================= *)
(** * Media sources in the pass over nodes *)















